(** * bench-ph/plot.py: reading, pivoting and charting a hashing benchmark

    A shallow embedding of [test-network/bench-ph/plot.py].  The script reads
    a CSV of benchmark results, groups the records by file and algorithm, and
    draws three bar charts.  Python values are embedded as follows:

    - [str] is [string] (the bytes of the text; cells are taken to be ASCII
      where a builtin looks at individual characters);
    - [int] is [Z], [float] is the binary64 instance of [spec_float];
    - a [dict] is an association list in insertion order ([Dict.t]);
    - an exception is the [Raise] branch of [result];
    - the figure a renderer draws is a record of what was put on its axes,
      and saving it or printing a line appends an event to the trace of the
      [World];
    - laying a figure out and writing it are calls of the drawing library
      that may raise (a text it cannot typeset, a path it cannot write): the
      [World] says for which figures and paths they do. *)

From Stdlib Require Import ZArith List String Ascii Bool Lia.
From Stdlib Require Import Sorting.Mergesort Sorting.Sorted Sorting.Permutation.
From Stdlib Require Import Structures.Orders.
From Stdlib Require Import Floats.SpecFloat.
From Stdlib Require Import Numbers.DecimalString.
Import ListNotations.

Local Open Scope string_scope.
Local Open Scope list_scope.
Local Open Scope Z_scope.

(** ** Exceptions and the error monad *)

Inductive exn : Type :=
| KeyError (key : string)
| AttributeError
| ZeroDivisionError
| ValueError
| OSError.

Inductive result (A : Type) : Type :=
| Ok (a : A)
| Raise (e : exn).

Arguments Ok {A} a.
Arguments Raise {A} e.

Definition bind {A B : Type} (m : result A) (k : A -> result B) : result B :=
  match m with
  | Ok a => k a
  | Raise e => Raise e
  end.

Notation "x <- m ;; k" := (bind m (fun x => k))
  (at level 61, m at next level, right associativity).
Notation "' p <- m ;; k" := (bind m (fun x => let p := x in k))
  (at level 61, p pattern, m at next level, right associativity).

(** A [for] loop whose body may raise: the loop stops at the first exception. *)
Fixpoint for_each {A S : Type} (body : S -> A -> result S) (xs : list A) (s : S)
  : result S :=
  match xs with
  | [] => Ok s
  | x :: xs' => s' <- body s x ;; for_each body xs' s'
  end.

(** A list comprehension whose element expression may raise. *)
Fixpoint comprehension {A B : Type} (f : A -> result B) (xs : list A)
  : result (list B) :=
  match xs with
  | [] => Ok []
  | x :: xs' => y <- f x ;; ys <- comprehension f xs' ;; Ok (y :: ys)
  end.

(** ** The builtins of Python the script calls *)

Module Py.

(** *** float *)

Definition float : Type := spec_float.

Definition prec : Z := 53.
Definition emax : Z := 1024.

Definition zero : float := S754_zero false.

(** [bool(x)]: every float but the two zeros is true, NaN included. *)
Definition float_bool (x : float) : bool :=
  match x with
  | S754_zero _ => false
  | _ => true
  end.

(** [a / b] raises on a zero divisor and is the IEEE quotient otherwise. *)
Definition truediv (a b : float) : result float :=
  if float_bool b then Ok (SFdiv prec emax a b) else Raise ZeroDivisionError.

Definition fadd (a b : float) : float := SFadd prec emax a b.
Definition fsub (a b : float) : float := SFsub prec emax a b.

(** The quotient by a divisor known not to be zero. *)
Definition fdiv (a b : float) : float := SFdiv prec emax a b.

(** [float(i)] for an [int]. *)
Definition float_of_int (i : Z) : float := binary_normalize prec emax i 0 false.

(** *** str.strip *)

Definition code (c : ascii) : Z := Z.of_N (N_of_ascii c).

(** [str.isspace] on an ASCII character: tab to carriage return, the four
    separators 0x1c-0x1f, and the space. *)
Definition isspace (c : ascii) : bool :=
  let n := code c in
  ((9 <=? n) && (n <=? 13)) || ((28 <=? n) && (n <=? 31)) || (n =? 32).

(** The text without the leading characters that satisfy [sp]. *)
Fixpoint lstrip_by (sp : ascii -> bool) (s : string) : string :=
  match s with
  | EmptyString => EmptyString
  | String c s' => if sp c then lstrip_by sp s' else s
  end.

(** The text without the trailing characters that satisfy [sp]. *)
Fixpoint rstrip_by (sp : ascii -> bool) (s : string) : string :=
  match s with
  | EmptyString => EmptyString
  | String c s' =>
      match rstrip_by sp s' with
      | EmptyString => if sp c then EmptyString else String c EmptyString
      | t => String c t
      end
  end.

(** [s.strip()] on an ASCII text.  (On other texts the interpreter also
    strips the blanks beyond ASCII, such as the no-break space.) *)
Definition strip (s : string) : string := rstrip_by isspace (lstrip_by isspace s).

(** *** int(str) *)

Definition digit_val (c : ascii) : option Z :=
  let n := code c in
  if (48 <=? n) && (n <=? 57) then Some (n - 48) else None.

Definition is_digit (c : ascii) : bool :=
  match digit_val c with Some _ => true | None => false end.

(** The blanks the number parsers skip on both sides (C's [isspace]). *)
Definition c_isspace (c : ascii) : bool :=
  let n := code c in ((9 <=? n) && (n <=? 13)) || (n =? 32).

Definition c_strip (s : string) : string :=
  rstrip_by c_isspace (lstrip_by c_isspace s).

(** A run of decimal digits in which single underscores may separate
    digits; [prev] says whether the previous character was a digit. *)
Fixpoint digitpart (acc : Z) (prev : bool) (s : string) : option Z :=
  match s with
  | EmptyString => if prev then Some acc else None
  | String c s' =>
      if Ascii.eqb c "_"
      then (if prev then digitpart acc false s' else None)
      else match digit_val c with
           | Some d => digitpart (10 * acc + d) true s'
           | None => None
           end
  end.

(** [int(s)] in base ten on an ASCII text; [None] stands for the
    [ValueError].  Two things the interpreter does are outside this model:
    it also reads the decimal digits of other scripts, and from Python 3.11
    on it refuses a text of more digits than a configurable cap (4300 by
    default). *)
Definition int (s : string) : option Z :=
  match c_strip s with
  | String "+" r => digitpart 0 false r
  | String "-" r => option_map Z.opp (digitpart 0 false r)
  | t => digitpart 0 false t
  end.

(** *** float(str) *)

(** Underscores are accepted only between two digits and are then dropped. *)
Fixpoint drop_underscores (prev : ascii) (s : string) : option string :=
  match s with
  | EmptyString => if Ascii.eqb prev "_" then None else Some EmptyString
  | String c s' =>
      if Ascii.eqb c "_"
      then (if is_digit prev then drop_underscores c s' else None)
      else if Ascii.eqb prev "_" && negb (is_digit c) then None
           else option_map (String c) (drop_underscores c s')
  end.

Definition lower (c : ascii) : ascii :=
  let n := code c in
  if (65 <=? n) && (n <=? 90) then ascii_of_N (Z.to_N (n + 32)) else c.

Fixpoint lowercase (s : string) : string :=
  match s with
  | EmptyString => EmptyString
  | String c s' => String (lower c) (lowercase s')
  end.

(** The longest prefix of digits: its value, its length, and the rest. *)
Fixpoint digits (acc : Z) (n : Z) (s : string) : Z * Z * string :=
  match s with
  | EmptyString => (acc, n, s)
  | String c s' =>
      match digit_val c with
      | Some d => digits (10 * acc + d) (n + 1) s'
      | None => (acc, n, s)
      end
  end.

(** The optional exponent; it must reach the end of the text. *)
Definition exponent (s : string) : option Z :=
  match s with
  | EmptyString => Some 0
  | String c r =>
      if Ascii.eqb (lower c) "e" then
        let '(neg, r') :=
          match r with
          | String "+" t => (false, t)
          | String "-" t => (true, t)
          | _ => (false, r)
          end in
        let '(e, n, rest) := digits 0 0 r' in
        if (0 <? n) && String.eqb rest "" then Some (if neg then - e else e)
        else None
      else None
  end.

(** The binary64 nearest to [m * 10^e] (ties to even) with sign [neg]. *)
Definition decimal_to_float (neg : bool) (m e : Z) : float :=
  match m * 10 ^ Z.max e 0 with
  | Zpos p =>
      SFdiv prec emax (S754_finite neg p 0)
            (S754_finite false (Z.to_pos (10 ^ Z.max (- e) 0)) 0)
  | _ => S754_zero neg
  end.

(** An unsigned decimal number: digits with an optional point and at least
    one digit, then the optional exponent. *)
Definition decimal (neg : bool) (s : string) : option float :=
  let '(ip, ni, r) := digits 0 0 s in
  let '(m, nf, r') :=
    match r with
    | String "." t => digits ip 0 t
    | _ => (ip, 0, r)
    end in
  if 0 <? ni + nf then
    match exponent r' with
    | Some e => Some (decimal_to_float neg m (e - nf))
    | None => None
    end
  else None.

Definition unsigned_float (neg : bool) (s : string) : option float :=
  let l := lowercase s in
  if String.eqb l "inf" || String.eqb l "infinity" then Some (S754_infinity neg)
  else if String.eqb l "nan" then Some S754_nan
  else decimal neg s.

(** [float(s)] on an ASCII text; [None] stands for the [ValueError].  (The
    interpreter also reads the decimal digits of other scripts.) *)
Definition float_of_str (s : string) : option float :=
  match drop_underscores " " (c_strip s) with
  | None => None
  | Some t =>
      match t with
      | String "+" r => unsigned_float false r
      | String "-" r => unsigned_float true r
      | _ => unsigned_float false t
      end
  end.

(** A float literal of the source text. *)
Definition literal (s : string) : float :=
  match float_of_str s with Some f => f | None => S754_nan end.

(** [list(range(n))] *)
Definition range (n : nat) : list Z := map Z.of_nat (seq 0 n).

(** *** format(x, ".2f") *)

(** The decimal text of a natural number. *)
Definition str_of_nat (n : Z) : string :=
  NilZero.string_of_uint (N.to_uint (Z.to_N n)).

Definition digit_char (d : Z) : ascii := ascii_of_N (Z.to_N (48 + d)).

(** [num / den] rounded to the nearest integer, ties to even. *)
Definition round_half_even (num den : Z) : Z :=
  let q := num / den in
  match 2 * (num mod den) ?= den with
  | Lt => q
  | Gt => q + 1
  | Eq => if Z.even q then q else q + 1
  end.

(** The number of hundredths in [m * 2^e], correctly rounded. *)
Definition hundredths (m : positive) (e : Z) : Z :=
  if 0 <=? e then Zpos m * 2 ^ e * 100
  else round_half_even (Zpos m * 100) (2 ^ (- e)).

Definition two_digits (h : Z) : string :=
  String (digit_char (h mod 100 / 10)) (String (digit_char (h mod 10)) "").

Definition fixed2 (neg : bool) (h : Z) : string :=
  ((if neg then "-" else "") ++ str_of_nat (h / 100) ++ "." ++ two_digits h)%string.

(** [f"{x:.2f}"] *)
Definition format_2f (x : float) : string :=
  match x with
  | S754_zero s => fixed2 s 0
  | S754_infinity s => if s then "-inf" else "inf"
  | S754_nan => "nan"
  | S754_finite s m e => fixed2 s (hundredths m e)
  end.

(** *** sorted on a list of str *)

Module StringOrder <: TotalLeBool.
Definition t := string.
Definition leb := String.leb.
Definition leb_total : forall a b, leb a b = true \/ leb b a = true :=
  String.leb_total.
End StringOrder.

Module StringSort := Sort StringOrder.

Definition sorted (l : list string) : list string := StringSort.sort l.

End Py.

(** ** dict: an association list in insertion order *)

Module Dict.

Section Operations.
Context {V : Type}.

Definition t : Type := list (string * V).

Definition empty : t := [].

(** [d.get(k)], with [None] for a missing key. *)
Fixpoint get (d : t) (k : string) : option V :=
  match d with
  | [] => None
  | (k', v) :: d' => if String.eqb k' k then Some v else get d' k
  end.

(** [k in d] *)
Definition mem (d : t) (k : string) : bool :=
  match get d k with Some _ => true | None => false end.

(** [d[k]] *)
Definition getitem (d : t) (k : string) : result V :=
  match get d k with Some v => Ok v | None => Raise (KeyError k) end.

(** [d.get(k, default)] *)
Definition get_or (d : t) (k : string) (default : V) : V :=
  match get d k with Some v => v | None => default end.

(** [d[k] = v]: a key already present keeps its place, a new one goes last. *)
Fixpoint set (d : t) (k : string) (v : V) : t :=
  match d with
  | [] => [(k, v)]
  | (k', v') :: d' =>
      if String.eqb k' k then (k, v) :: d' else (k', v') :: set d' k v
  end.

Definition keys (d : t) : list string := map fst d.

(** [d.items()], in iteration order. *)
Definition items (d : t) : list (string * V) := d.

(** What every dict satisfies: no key occurs twice. *)
Definition wf (d : t) : Prop := NoDup (keys d).

End Operations.

Arguments t V : clear implicits.

End Dict.

(** ** pathlib.Path, as far as the script uses it *)

Module Path.

(** A path as pathlib holds it: the anchor (empty or the root) and the
    components, each of them non-empty and free of separators. *)
Record t : Type := { anchor : string; parts : list string }.

(** [p.name]: the last component, or the empty text. *)
Definition name (p : t) : string := last (parts p) "".

(** [s.rfind(".")] *)
Fixpoint rfind_dot (s : string) : option nat :=
  match s with
  | EmptyString => None
  | String c s' =>
      match rfind_dot s' with
      | Some i => Some (S i)
      | None => if Ascii.eqb c "." then Some 0%nat else None
      end
  end.

(** [p.stem]: the name without its last suffix; a leading or a trailing dot
    starts no suffix (the rule of pathlib up to Python 3.13). *)
Definition stem (p : t) : string :=
  let n := name p in
  match rfind_dot n with
  | Some i =>
      if (Nat.ltb 0 i && Nat.ltb i (String.length n - 1))%bool
      then substring 0 i n else n
  | None => n
  end.

(** [p / child] for a child that is one component. *)
Definition div (p : t) (child : string) : t :=
  {| anchor := anchor p; parts := parts p ++ [child] |}.

(** [str(p)] *)
Definition str (p : t) : string :=
  match parts p with
  | [] => if String.eqb (anchor p) "" then "." else anchor p
  | _ => (anchor p ++ String.concat "/" (parts p))%string
  end.

End Path.

(** ** Records and the row reader *)

(** One parsed row of the benchmark table: the dict [out] of [read_rows]. *)
Record Row : Type := {
  algo : string;
  file : string;
  B_bytes : option Z;
  bytes : Z;
  elapsed_ms_med : Py.float;
  throughput_mib_s : Py.float;
  sum_hex : string
}.

(** A row as [csv.DictReader] yields it: a dict from the header's names to
    the cells, a cell being [None] where the line was too short. *)
Definition CsvRow : Type := Dict.t (option string).

Definition dict_row (fieldnames row : list string) : CsvRow :=
  let d := fold_left (fun d kv => Dict.set d (fst kv) (Some (snd kv)))
                     (combine fieldnames row) Dict.empty in
  fold_left (fun d k => Dict.set d k None) (skipn (List.length row) fieldnames) d.

Definition is_blank_line (row : list string) : bool :=
  match row with [] => true | _ => false end.

(** [csv.DictReader] over the lines [csv.reader] produces: the first line is
    the header and blank lines are skipped.  (The cells beyond the header,
    kept under the key [None], are left out: the script never reads them.) *)
Definition DictReader (lines : list (list string)) : list CsvRow :=
  match lines with
  | [] => []
  | fieldnames :: rest =>
      map (dict_row fieldnames) (filter (fun row => negb (is_blank_line row)) rest)
  end.

(** [x or ""] *)
Definition or_empty (x : option string) : string :=
  match x with Some s => s | None => "" end.

Definition to_int (x : option string) : option Z :=
  Py.int (Py.strip (or_empty x)).

Definition to_float (x : option string) : option Py.float :=
  Py.float_of_str (Py.strip (or_empty x)).

(** [x or 0] *)
Definition int_or (x : option Z) (default : Z) : Z :=
  match x with
  | Some n => if n =? 0 then default else n
  | None => default
  end.

(** [x or 0.0] *)
Definition float_or (x : option Py.float) (default : Py.float) : Py.float :=
  match x with
  | Some f => if Py.float_bool f then f else default
  | None => default
  end.

(** [x.strip()] on a cell: [None] has no such method. *)
Definition cell_strip (x : option string) : result string :=
  match x with
  | Some s => Ok (Py.strip s)
  | None => Raise AttributeError
  end.

(** The body of the loop of [read_rows]. *)
Definition read_row (r : CsvRow) : result Row :=
  a <- Dict.getitem r "algo" ;;
  a <- cell_strip a ;;
  f <- Dict.getitem r "file" ;;
  f <- cell_strip f ;;
  Ok {| algo := a;
        file := f;
        B_bytes := to_int (Dict.get_or r "B_bytes" (Some ""));
        bytes := int_or (to_int (Dict.get_or r "bytes" (Some ""))) 0;
        elapsed_ms_med :=
          float_or (to_float (Dict.get_or r "elapsed_ms_med" (Some ""))) Py.zero;
        throughput_mib_s :=
          float_or (to_float (Dict.get_or r "throughput_mib_s" (Some ""))) Py.zero;
        sum_hex := Py.strip (or_empty (Dict.get_or r "sum_hex" (Some ""))) |}.

(** ** The pivot index *)

Definition PivotIndex : Type := Dict.t (Dict.t Row).

(** [algo in ("SHA-256", "PH128")] *)
Definition recognized (a : string) : bool :=
  String.eqb a "SHA-256" || String.eqb a "PH128".

Definition pivot_body (by_file : PivotIndex) (r : Row) : result PivotIndex :=
  let algo := algo r in
  let fname := file r in
  if negb (recognized algo) then Ok by_file
  else
    let by_file :=
      if negb (Dict.mem by_file fname) then Dict.set by_file fname Dict.empty
      else by_file in
    inner <- Dict.getitem by_file fname ;;
    Ok (Dict.set by_file fname (Dict.set inner algo r)).

Definition pivot_by_file (rows : list Row) : result PivotIndex :=
  for_each pivot_body rows Dict.empty.

(** ** What a renderer draws *)

Record Rectangle : Type := {
  rect_x : Py.float;
  rect_width : Py.float;
  rect_height : Py.float
}.

Record BarContainer : Type := {
  patches : list Rectangle;
  bar_label : option string
}.

Record Text : Type := { text_x : Py.float; text_y : Py.float; text_s : string }.

(** The axes of a figure: what the calls of a renderer have put on them. *)
Record Axes : Type := {
  grid_y : bool;
  containers : list BarContainer;
  title : string;
  xlabel : string;
  ylabel : string;
  xticks : list Z;
  xticklabels : list string;
  has_legend : bool;
  texts : list Text
}.

(** [plt.subplots(...)]: fresh, empty axes. *)
Definition subplots : Axes :=
  {| grid_y := false; containers := []; title := ""; xlabel := ""; ylabel := "";
     xticks := []; xticklabels := []; has_legend := false; texts := [] |}.

Definition grid (ax : Axes) : Axes :=
  {| grid_y := true; containers := containers ax; title := title ax;
     xlabel := xlabel ax; ylabel := ylabel ax; xticks := xticks ax;
     xticklabels := xticklabels ax; has_legend := has_legend ax; texts := texts ax |}.

Definition add_container (ax : Axes) (c : BarContainer) : Axes :=
  {| grid_y := grid_y ax; containers := containers ax ++ [c]; title := title ax;
     xlabel := xlabel ax; ylabel := ylabel ax; xticks := xticks ax;
     xticklabels := xticklabels ax; has_legend := has_legend ax; texts := texts ax |}.

Definition two : Py.float := Eval vm_compute in Py.literal "2.0".

(** The width [ax.bar] works with: it is recomputed from the first position,
    as the position moved by the width less the position, which can differ
    from the width given in the last bit. *)
Definition convert_dx (x : list Py.float) (width : Py.float) : Py.float :=
  match x with
  | [] => width
  | x0 :: _ => Py.fsub (Py.fadd x0 width) x0
  end.

(** [ax.bar(x, height, width, label=...)]: one rectangle per position,
    centred on it; the two sequences must have the same length. *)
Definition bar (ax : Axes) (x height : list Py.float) (width : Py.float)
    (label : option string) : result (Axes * BarContainer) :=
  if Nat.eqb (List.length x) (List.length height) then
    let width := convert_dx x width in
    let c := {| patches :=
                  map (fun xh => {| rect_x := Py.fsub (fst xh) (Py.fdiv width two);
                                    rect_width := width;
                                    rect_height := snd xh |})
                      (combine x height);
                bar_label := label |} in
    Ok (add_container ax c, c)
  else Raise ValueError.

Definition set_title (ax : Axes) (s : string) : Axes :=
  {| grid_y := grid_y ax; containers := containers ax; title := s;
     xlabel := xlabel ax; ylabel := ylabel ax; xticks := xticks ax;
     xticklabels := xticklabels ax; has_legend := has_legend ax; texts := texts ax |}.

Definition set_xlabel (ax : Axes) (s : string) : Axes :=
  {| grid_y := grid_y ax; containers := containers ax; title := title ax;
     xlabel := s; ylabel := ylabel ax; xticks := xticks ax;
     xticklabels := xticklabels ax; has_legend := has_legend ax; texts := texts ax |}.

Definition set_ylabel (ax : Axes) (s : string) : Axes :=
  {| grid_y := grid_y ax; containers := containers ax; title := title ax;
     xlabel := xlabel ax; ylabel := s; xticks := xticks ax;
     xticklabels := xticklabels ax; has_legend := has_legend ax; texts := texts ax |}.

(** [ax.set_xticks(ticks, labels, ...)]: as many labels as ticks. *)
Definition set_xticks (ax : Axes) (ticks : list Z) (labels : list string)
  : result Axes :=
  if Nat.eqb (List.length ticks) (List.length labels) then
    Ok {| grid_y := grid_y ax; containers := containers ax; title := title ax;
          xlabel := xlabel ax; ylabel := ylabel ax; xticks := ticks;
          xticklabels := labels; has_legend := has_legend ax; texts := texts ax |}
  else Raise ValueError.

Definition legend (ax : Axes) : Axes :=
  {| grid_y := grid_y ax; containers := containers ax; title := title ax;
     xlabel := xlabel ax; ylabel := ylabel ax; xticks := xticks ax;
     xticklabels := xticklabels ax; has_legend := true; texts := texts ax |}.

(** [ax.text(x, y, s, ...)] *)
Definition text (ax : Axes) (x y : Py.float) (s : string) : Axes :=
  {| grid_y := grid_y ax; containers := containers ax; title := title ax;
     xlabel := xlabel ax; ylabel := ylabel ax; xticks := xticks ax;
     xticklabels := xticklabels ax; has_legend := has_legend ax;
     texts := texts ax ++ [{| text_x := x; text_y := y; text_s := s |}] |}.

(** The heights of the bars of a container, left to right. *)
Definition heights (c : BarContainer) : list Py.float :=
  map rect_height (patches c).

(** [_bar_labels(ax, bars)] with the default [fmt="{}"], which every call
    uses: the height of each bar, to two decimals, above the bar. *)
Definition _bar_labels (ax : Axes) (bars : BarContainer) : Axes :=
  fold_left
    (fun ax b =>
       let height := rect_height b in
       text ax (Py.fadd (rect_x b) (Py.fdiv (rect_width b) two)) height
            (Py.format_2f height))
    (patches bars) ax.

(** ** The world a run acts on *)

Inductive Event : Type :=
| Savefig (fname : Path.t) (fig : Axes) (dpi : Z)
| Print (line : string).

(** The tables that can be opened, each as the lines [csv.reader] yields for
    it; what the drawing library refuses: the exception, if any, that laying
    a figure out raises (a label or title it cannot typeset) and the
    exception, if any, that writing a figure under a path raises (a missing
    or unwritable directory, a text it cannot typeset); and what the run has
    written so far. *)
Record World : Type := {
  tables : Path.t -> option (list (list string));
  layout_error : Axes -> option exn;
  save_error : Path.t -> Axes -> option exn;
  trace : list Event
}.

(** A computation that reads and extends the world and may raise. *)
Definition M (A : Type) : Type := World -> World * result A.

Definition ret {A : Type} (a : A) : M A := fun w => (w, Ok a).

Definition bindM {A B : Type} (m : M A) (k : A -> M B) : M B :=
  fun w =>
    match m w with
    | (w', Ok a) => k a w'
    | (w', Raise e) => (w', Raise e)
    end.

Definition lift {A : Type} (r : result A) : M A := fun w => (w, r).

Notation "x <<- m ;; k" := (bindM m (fun x => k))
  (at level 61, m at next level, right associativity).

Definition emit (e : Event) : M unit :=
  fun w =>
    ({| tables := tables w; layout_error := layout_error w;
        save_error := save_error w; trace := trace w ++ [e] |}, Ok tt).

(** [fig.tight_layout()]: writes nothing; raises when the figure cannot be
    laid out. *)
Definition tight_layout (fig : Axes) : M unit :=
  fun w =>
    match layout_error w fig with
    | Some e => (w, Raise e)
    | None => (w, Ok tt)
    end.

(** [fig.savefig(out_png, dpi=...)]: raises, saving nothing, when the figure
    cannot be written under the path. *)
Definition savefig (out_png : Path.t) (fig : Axes) (dpi : Z) : M unit :=
  fun w =>
    match save_error w out_png fig with
    | Some e => (w, Raise e)
    | None => emit (Savefig out_png fig dpi) w
    end.

(** [print(...)] *)
Definition print (line : string) : M unit := emit (Print line).

(** [csv_path.open("r", newline="")] and the reading of its lines. *)
Definition open_table (csv_path : Path.t) : M (list (list string)) :=
  fun w =>
    match tables w csv_path with
    | Some lines => (w, Ok lines)
    | None => (w, Raise OSError)
    end.

Definition read_rows (csv_path : Path.t) : M (list Row) :=
  lines <<- open_table csv_path ;;
  lift (comprehension read_row (DictReader lines)).

(** ** The three renderers *)

(** Each renderer builds its figure, lays it out and saves it.  The closing
    [plt.close(fig)], which is reached only once the figure is saved and
    then only releases it, is left out. *)

Definition width : Py.float := Eval vm_compute in Py.literal "0.4".

(** ["SHA-256" in algos and "PH128" in algos] *)
Definition has_both (algos : Dict.t Row) : bool :=
  Dict.mem algos "SHA-256" && Dict.mem algos "PH128".

(** The body of the loop of [make_time_plot] over [by_file.items()]. *)
Definition time_body (acc : list string * list Py.float * list Py.float)
    (item : string * Dict.t Row)
  : result (list string * list Py.float * list Py.float) :=
  let '(labels, sha_times, ph_times) := acc in
  let '(fname, algos) := item in
  if String.eqb fname "TOTAL" then Ok acc
  else if has_both algos then
    sha <- Dict.getitem algos "SHA-256" ;;
    ph <- Dict.getitem algos "PH128" ;;
    Ok (labels ++ [fname],
        sha_times ++ [elapsed_ms_med sha],
        ph_times ++ [elapsed_ms_med ph])
  else Ok acc.

Definition make_time_plot (rows : list Row) (out_png : Path.t) : M unit :=
  fig <<- lift (
    by_file <- pivot_by_file rows ;;
    ' (labels, sha_times, ph_times) <-
      for_each time_body (Dict.items by_file) ([], [], []) ;;
    let x := Py.range (List.length labels) in
    let ax := grid subplots in
    ' (ax, bars_sha) <-
      bar ax (map (fun i => Py.fsub (Py.float_of_int i) (Py.fdiv width two)) x)
          sha_times width (Some "SHA-256") ;;
    ' (ax, bars_ph) <-
      bar ax (map (fun i => Py.fadd (Py.float_of_int i) (Py.fdiv width two)) x)
          ph_times width (Some "PH128") ;;
    let ax := set_title ax "Elapsed time (ms) por arquivo" in
    let ax := set_xlabel ax "Arquivo" in
    let ax := set_ylabel ax "Tempo mediano (ms)" in
    ax <- set_xticks ax x labels ;;
    let ax := legend ax in
    let ax := _bar_labels ax bars_sha in
    let ax := _bar_labels ax bars_ph in
    Ok ax) ;;
  _ <<- tight_layout fig ;;
  savefig out_png fig 120.

(** The body of the loop of [make_speedup_plot]. *)
Definition speedup_body (acc : list string * list Py.float)
    (item : string * Dict.t Row) : result (list string * list Py.float) :=
  let '(labels, speedups) := acc in
  let '(fname, algos) := item in
  if has_both algos then
    sha <- Dict.getitem algos "SHA-256" ;;
    let sha_t := throughput_mib_s sha in
    ph <- Dict.getitem algos "PH128" ;;
    let ph_t := throughput_mib_s ph in
    if Py.float_bool sha_t && Py.float_bool ph_t then
      q <- Py.truediv ph_t sha_t ;;
      Ok (labels ++ [fname], speedups ++ [q])
    else Ok acc
  else Ok acc.

(** The width of a bar when [ax.bar] is given none. *)
Definition default_width : Py.float := Eval vm_compute in Py.literal "0.8".

Definition make_speedup_plot (rows : list Row) (out_png : Path.t) : M unit :=
  fig <<- lift (
    by_file <- pivot_by_file rows ;;
    ' (labels, speedups) <- for_each speedup_body (Dict.items by_file) ([], []) ;;
    let x := Py.range (List.length labels) in
    let ax := grid subplots in
    ' (ax, bars) <- bar ax (map Py.float_of_int x) speedups default_width None ;;
    let ax := set_title ax "Speedup de throughput (PH128 / SHA-256)" in
    let ax := set_xlabel ax "Arquivo" in
    let ax := set_ylabel ax "Speedup (×)" in
    ax <- set_xticks ax x labels ;;
    let ax := _bar_labels ax bars in
    Ok ax) ;;
  _ <<- tight_layout fig ;;
  savefig out_png fig 120.

Definition preferred : list string :=
  ["public_state.data"; "private_state_hashes.data"; "txids.data"; "_all.data";
   "TOTAL"].

(** [f in l] for a list of str. *)
Definition in_list (f : string) (l : list string) : bool :=
  existsb (String.eqb f) l.

Definition default_title : string :=
  "Snapshot Hashing Throughput — SHA-256 Vs PH128 (150k Tx, 10KB)".

(** [title or "..."] *)
Definition title_or (title : option string) (default : string) : string :=
  match title with
  | Some s => if String.eqb s "" then default else s
  | None => default
  end.

(** [by_file[f][a]["throughput_mib_s"]] *)
Definition throughput_of (by_file : PivotIndex) (a f : string) : result Py.float :=
  algos <- Dict.getitem by_file f ;;
  r <- Dict.getitem algos a ;;
  Ok (throughput_mib_s r).

Definition make_throughput_plot (rows : list Row) (out_png : Path.t)
    (title : option string) : M unit :=
  fig <<- lift (
    by_file <- pivot_by_file rows ;;
    let all_labels :=
      map fst (filter (fun item => has_both (snd item)) (Dict.items by_file)) in
    let labels :=
      filter (fun f => in_list f all_labels) preferred
      ++ Py.sorted (filter (fun f => negb (in_list f preferred)) all_labels) in
    sha_vals <- comprehension (throughput_of by_file "SHA-256") labels ;;
    ph_vals <- comprehension (throughput_of by_file "PH128") labels ;;
    let x := Py.range (List.length labels) in
    let ax := grid subplots in
    ' (ax, bars_sha) <-
      bar ax (map (fun i => Py.fsub (Py.float_of_int i) (Py.fdiv width two)) x)
          sha_vals width (Some "SHA-256") ;;
    ' (ax, bars_ph) <-
      bar ax (map (fun i => Py.fadd (Py.float_of_int i) (Py.fdiv width two)) x)
          ph_vals width (Some "PH128") ;;
    let title := title_or title default_title in
    let ax := set_title ax title in
    let ax := set_xlabel ax "Arquivo" in
    let ax := set_ylabel ax "Throughput (MiB/s)" in
    ax <- set_xticks ax x labels ;;
    let ax := legend ax in
    let ax := _bar_labels ax bars_sha in
    let ax := _bar_labels ax bars_ph in
    Ok ax) ;;
  _ <<- tight_layout fig ;;
  savefig out_png fig 120.

(** ** The entry point *)

(** The parsed command line. *)
Record Args : Type := {
  arg_csv : Path.t;
  arg_outdir : Path.t;
  arg_title : string
}.

(** The command line when no option is given. *)
Definition default_args : Args :=
  {| arg_csv := {| Path.anchor := ""; Path.parts := ["snapshot_bench.csv"] |};
     arg_outdir := {| Path.anchor := ""; Path.parts := [] |};
     arg_title := default_title |}.

Definition main (args : Args) : M unit :=
  rows <<- read_rows (arg_csv args) ;;
  let base := Path.stem (arg_csv args) in
  let time_png := Path.div (arg_outdir args) (base ++ "_time.png")%string in
  let speedup_png := Path.div (arg_outdir args) (base ++ "_speedup.png")%string in
  let throughput_png :=
    Path.div (arg_outdir args) (base ++ "_throughput.png")%string in
  _ <<- make_time_plot rows time_png ;;
  _ <<- make_speedup_plot rows speedup_png ;;
  _ <<- make_throughput_plot rows throughput_png (Some (arg_title args)) ;;
  _ <<- print "OK! Arquivos salvos:" ;;
  _ <<- print (" - " ++ Path.str time_png)%string ;;
  _ <<- print (" - " ++ Path.str speedup_png)%string ;;
  print (" - " ++ Path.str throughput_png)%string.

(** ** Vocabulary of the statements *)

(** *** The index *)

(** The record the index holds for a file and an algorithm. *)
Definition lookup (idx : PivotIndex) (f a : string) : option Row :=
  match Dict.get idx f with
  | Some algos => Dict.get algos a
  | None => None
  end.

(** The last record of the input with the given file and algorithm. *)
Definition last_record (rows : list Row) (f a : string) : option Row :=
  find (fun r => String.eqb (file r) f && String.eqb (algo r) a) (rev rows).

(** What holds of the index built from [rows]. *)
Definition pivot_inv (rows : list Row) (idx : PivotIndex) : Prop :=
  Dict.wf idx
  /\ (forall f algos, Dict.get idx f = Some algos -> Dict.wf algos)
  /\ (forall f a,
        lookup idx f a = if recognized a then last_record rows f a else None).

(** The index holds a record of each of the two algorithms for the file. *)
Definition qualifies (idx : PivotIndex) (f : string) : bool :=
  match Dict.get idx f with
  | Some algos => has_both algos
  | None => false
  end.

(** The files of a dict of the index's shape that have a record of both
    algorithms, each with its two records, in iteration order. *)
Definition pairs (items : list (string * Dict.t Row)) : list (string * Row * Row) :=
  flat_map
    (fun item =>
       match Dict.get (snd item) "SHA-256", Dict.get (snd item) "PH128" with
       | Some sha, Some ph => [(fst item, sha, ph)]
       | _, _ => []
       end)
    items.

(** The components of such a triple. *)
Definition pair_name (t : string * Row * Row) : string := fst (fst t).
Definition pair_sha (t : string * Row * Row) : Row := snd (fst t).
Definition pair_ph (t : string * Row * Row) : Row := snd t.

(** Both throughputs of a pair are non-zero. *)
Definition pair_nonzero (t : string * Row * Row) : bool :=
  Py.float_bool (throughput_mib_s (pair_sha t))
  && Py.float_bool (throughput_mib_s (pair_ph t)).

(** The throughput the index records for a file and an algorithm. *)
Definition throughput_at (idx : PivotIndex) (a f : string) : Py.float :=
  match lookup idx f a with
  | Some r => throughput_mib_s r
  | None => Py.zero
  end.

(** The categories of the throughput chart, read off the index. *)
Definition throughput_labels (idx : PivotIndex) : list string :=
  let all_labels := filter (qualifies idx) (Dict.keys idx) in
  filter (fun f => in_list f all_labels) preferred
  ++ Py.sorted (filter (fun f => negb (in_list f preferred)) all_labels).

(** *** The charts *)

(** The float is not a zero. *)
Definition nonzero (x : Py.float) : Prop := forall s, x <> S754_zero s.



(** The annotation [_bar_labels] puts above a bar. *)
Definition bar_text (b : Rectangle) : Text :=
  {| text_x := Py.fadd (rect_x b) (Py.fdiv (rect_width b) two);
     text_y := rect_height b;
     text_s := Py.format_2f (rect_height b) |}.

(** The two bar series of a grouped chart are aligned with its categories:
    as many bars in each series as categories, and the i-th bars show the
    given field of the two records the index holds for the i-th category. *)
Definition aligned (idx : PivotIndex) (field : Row -> Py.float) (fig : Axes) : Prop :=
  exists bars_sha bars_ph,
    containers fig = [bars_sha; bars_ph]
    /\ List.length (heights bars_sha) = List.length (xticklabels fig)
    /\ List.length (heights bars_ph) = List.length (xticklabels fig)
    /\ forall i f,
         nth_error (xticklabels fig) i = Some f ->
         exists algos sha ph,
           Dict.get idx f = Some algos
           /\ Dict.get algos "SHA-256" = Some sha
           /\ Dict.get algos "PH128" = Some ph
           /\ nth_error (heights bars_sha) i = Some (field sha)
           /\ nth_error (heights bars_ph) i = Some (field ph).


(** The heights of all the bars of a chart, series by series. *)
Definition all_heights (fig : Axes) : list (list Py.float) :=
  map heights (containers fig).

(** The world after more events. *)
Definition extended (w : World) (events : list Event) : World :=
  {| tables := tables w; layout_error := layout_error w;
     save_error := save_error w; trace := trace w ++ events |}.

(** The world after one more event. *)
Definition after (w : World) (e : Event) : World := extended w [e].

(** What laying a figure out and saving it under a path make of a world:
    the exception of the first of the two calls that raises, with nothing
    saved, or else the figure saved. *)
Definition outcome (out_png : Path.t) (fig : Axes) (w : World)
  : World * result unit :=
  match layout_error w fig with
  | Some e => (w, Raise e)
  | None =>
      match save_error w out_png fig with
      | Some e => (w, Raise e)
      | None => (after w (Savefig out_png fig 120), Ok tt)
      end
  end.

(** The drawing library raises neither on laying the figure out nor on
    writing it under the path. *)
Definition accepted (w : World) (out_png : Path.t) (fig : Axes) : Prop :=
  layout_error w fig = None /\ save_error w out_png fig = None.

(** The figures a run has saved, in order. *)
Definition saved (w : World) : list Axes :=
  flat_map (fun e => match e with Savefig _ fig _ => [fig] | Print _ => [] end)
           (trace w).

(** What an event shows: the path of a saved image, or the printed line. *)
Definition event_text (e : Event) : string :=
  match e with
  | Savefig p _ _ => Path.str p
  | Print line => line
  end.

(** *** The cells of a row *)

(** [r.get(col, "")]: the cell of a column as the reader fetches it. *)
Definition cell (r : CsvRow) (col : string) : option string :=
  Dict.get_or r col (Some "").

(** The text of a cell that the number parsers are given. *)
Definition cell_text (r : CsvRow) (col : string) : string :=
  Py.strip (or_empty (cell r col)).

(** The row has no cell for the column: the header lacks it, or the line
    was too short. *)
Definition absent (r : CsvRow) (col : string) : Prop :=
  Dict.get r col = None \/ Dict.get r col = Some None.

(** The cell is empty once stripped. *)
Definition blank (x : option string) : Prop := Py.strip (or_empty x) = "".

(** The character occurs in the text. *)
Fixpoint has_char (c : ascii) (s : string) : bool :=
  match s with
  | EmptyString => false
  | String c' s' => Ascii.eqb c' c || has_char c s'
  end.

(** A coerced number, for the reading of the specification below. *)
Inductive number : Type :=
| NInt (n : Z)
| NFloat (x : Py.float).

(** The coercion as the specification words it: an integer parse first and,
    if that fails, a float parse. *)
Definition spec_coerce (x : option string) : option number :=
  let s := Py.strip (or_empty x) in
  match Py.int s with
  | Some n => Some (NInt n)
  | None =>
      match Py.float_of_str s with
      | Some v => Some (NFloat v)
      | None => None
      end
  end.

(** *** Sample inputs *)

(** The header of the benchmark table. *)
Definition sample_header : list string :=
  ["algo"; "file"; "B_bytes"; "bytes"; "elapsed_ms_med"; "throughput_mib_s"; "sum_hex"].

(** A line whose numeric cells do not parse, and which is too short. *)
Definition sample_bad_row : CsvRow :=
  dict_row sample_header ["PH128"; "a.bin"; "n/a"; "  "; "fast"].

(** A line whose byte count is written as a float. *)
Definition float_bytes_row : CsvRow :=
  dict_row sample_header ["SHA-256"; "a.bin"; ""; "1.5"; "100.0"; "10.0"; ""].

(** A table: both algorithms for data.bin, one for lonely.bin. *)
Definition sample_lines : list (list string) :=
  [sample_header;
   ["SHA-256"; "data.bin"; ""; "1048576"; "100.0"; "10.0"; "ab"];
   ["PH128"; "data.bin"; ""; "1048576"; "20.0"; "50.0"; "cd"];
   ["SHA-256"; "lonely.bin"; ""; "1"; "1.0"; "1.0"; ""]].

(** A world in which every path opens that table. *)
Definition sample_world : World :=
  {| tables := fun _ => Some sample_lines; layout_error := fun _ => None;
     save_error := fun _ _ => None; trace := [] |}.


(** A record with the given algorithm, file and throughput text. *)
Definition sample_record (a f t : string) : Row :=
  {| algo := a; file := f; B_bytes := None; bytes := 1;
     elapsed_ms_med := Py.literal "1.0";
     throughput_mib_s := Py.literal t; sum_hex := "" |}.

(** *** Further vocabulary: order of appearance, header and line, charts *)

(** The names of a list, each once, in the order of their first occurrence. *)
Fixpoint first_seen (l : list string) : list string :=
  match l with
  | [] => []
  | x :: l' => x :: filter (fun y => negb (String.eqb y x)) (first_seen l')
  end.

(** The cell each header name gets from a line: the cell at the same
    position, or [None] where the line is too short. *)
Fixpoint pad (fieldnames row : list string) : list (string * option string) :=
  match fieldnames with
  | [] => []
  | k :: ks =>
      match row with
      | [] => (k, None) :: pad ks []
      | v :: vs => (k, Some v) :: pad ks vs
      end
  end.

(** The data lines of a table that [csv.DictReader] turns into rows. *)
Definition data_lines (data : list (list string)) : list (list string) :=
  filter (fun row => negb (is_blank_line row)) data.

(** The renderer call draws the figure: in whatever world it runs, it
    builds this figure without an error of its own and then lays it out and
    saves it under the path, so that it raises exactly when one of these two
    calls of the drawing library raises, and has then saved nothing. *)
Definition draws (m : M unit) (out_png : Path.t) (fig : Axes) : Prop :=
  forall w, m w = outcome out_png fig w.

(** The file is a category of the time chart. *)
Definition in_time_chart (idx : PivotIndex) (f : string) : bool :=
  negb (String.eqb f "TOTAL") && qualifies idx f.

(** The file is a category of the speedup chart. *)
Definition in_speedup_chart (idx : PivotIndex) (f : string) : bool :=
  match lookup idx f "SHA-256", lookup idx f "PH128" with
  | Some sha, Some ph =>
      Py.float_bool (throughput_mib_s sha) && Py.float_bool (throughput_mib_s ph)
  | _, _ => false
  end.

(** A world in which every path opens a table whose second data line is too
    short to have a file cell. *)
Definition short_line_world : World :=
  {| tables := fun _ => Some [sample_header; ["PH128"; "a.bin"]; ["PH128"]];
     layout_error := fun _ => None; save_error := fun _ _ => None;
     trace := [] |}.

(** A world with no table and nothing written, in which the drawing
    library raises on nothing. *)
Definition blank_world : World :=
  {| tables := fun _ => None; layout_error := fun _ => None;
     save_error := fun _ _ => None; trace := [] |}.

(** A world in which every path opens a table with its header only and no
    figure can be written: the output directory is missing. *)
Definition missing_directory_world : World :=
  {| tables := fun _ => Some [sample_header]; layout_error := fun _ => None;
     save_error := fun _ _ => Some OSError; trace := [] |}.

(** A world in which the figures can be written but a figure with the title
    [$\bad$], which the drawing library cannot typeset, cannot be laid out. *)
Definition bad_title_world : World :=
  {| tables := fun _ => Some sample_lines;
     layout_error :=
       fun fig => if String.eqb (title fig) "$\bad$" then Some ValueError else None;
     save_error := fun _ _ => None; trace := [] |}.

(** The paths under which a run has saved figures, in order. *)
Definition saved_paths (w : World) : list Path.t :=
  flat_map (fun e => match e with Savefig p _ _ => [p] | Print _ => [] end)
           (trace w).

(** The path lies directly in the directory. *)
Definition directly_in (dir p : Path.t) : Prop :=
  Path.anchor p = Path.anchor dir
  /\ exists name, Path.parts p = Path.parts dir ++ [name].

(** * Properties *)

(** ** The builtins on sample texts *)

Example int_samples :
  map Py.int ["123"; "-1_000"; "+7"; " 42 "; "1.5"; ""; "1__0"; "12a"; "-"] =
  [Some 123; Some (-1000); Some 7; Some 42; None; None; None; None; None].
Proof. reflexivity. Qed.

Example float_samples :
  map Py.float_of_str ["0.4"; "20"; "1e400"; "-inf"; "NaN"; "1e"; "."; ""] =
  [Some width; Some (Py.float_of_int 20); Some (S754_infinity false);
   Some (S754_infinity true); Some S754_nan; None; None; None].
Proof. reflexivity. Qed.

Example format_samples :
  map Py.format_2f (map Py.literal ["0.1"; "0.125"; "0.375"; "-5"; "1e3"; "-0.001"]) =
  ["0.10"; "0.12"; "0.38"; "-5.00"; "1000.00"; "-0.00"].
Proof. reflexivity. Qed.

Example stem_samples :
  map (fun n => Path.stem {| Path.anchor := ""; Path.parts := ["runs"; n] |})
      ["snapshot_bench.csv"; "a.tar.gz"; ".hidden"; "plain"] =
  ["snapshot_bench"; "a.tar"; ".hidden"; "plain"].
Proof. reflexivity. Qed.

(** ** Loops in the error monad *)

Lemma for_each_app {A S : Type} (body : S -> A -> result S) (xs ys : list A) (s : S) :
  for_each body (xs ++ ys) s = (s' <- for_each body xs s ;; for_each body ys s').
Proof.
  revert s; induction xs as [|x xs IH]; intros s; simpl; [reflexivity|].
  destruct (body s x) as [s1|e]; simpl; [apply IH | reflexivity].
Qed.

Lemma comprehension_total {A B : Type} (f : A -> result B) (g : A -> B) (xs : list A) :
  (forall x, In x xs -> f x = Ok (g x)) ->
  comprehension f xs = Ok (map g xs).
Proof.
  induction xs as [|x xs IH]; intros H; simpl; [reflexivity|].
  rewrite (H x (or_introl eq_refl)); simpl.
  rewrite IH by (intros y Hy; apply H; right; exact Hy).
  reflexivity.
Qed.

(** ** Facts about dicts *)

Module DictFacts.

Section Facts.
Context {V : Type}.
Implicit Types (d : Dict.t V) (k : string) (v : V).

Lemma get_set_same d k v : Dict.get (Dict.set d k v) k = Some v.
Proof.
  induction d as [|[k' v'] d IH]; simpl.
  - now rewrite String.eqb_refl.
  - destruct (String.eqb k' k) eqn:E; simpl.
    + now rewrite String.eqb_refl.
    + now rewrite E.
Qed.

Lemma get_set_other d k k' v :
  k <> k' -> Dict.get (Dict.set d k v) k' = Dict.get d k'.
Proof.
  intros Hne; induction d as [|[k0 v0] d IH]; simpl.
  - apply String.eqb_neq in Hne. now rewrite Hne.
  - destruct (String.eqb k0 k) eqn:E; simpl.
    + apply String.eqb_eq in E; subst k0.
      apply String.eqb_neq in Hne. now rewrite Hne.
    + destruct (String.eqb k0 k'); [reflexivity | exact IH].
Qed.

Lemma set_set_same d k v v' :
  Dict.set (Dict.set d k v) k v' = Dict.set d k v'.
Proof.
  induction d as [|[k0 v0] d IH]; simpl.
  - now rewrite String.eqb_refl.
  - destruct (String.eqb k0 k) eqn:E; simpl.
    + now rewrite String.eqb_refl.
    + now rewrite E, IH.
Qed.

Lemma mem_keys d k : Dict.mem d k = true <-> In k (Dict.keys d).
Proof.
  unfold Dict.mem.
  induction d as [|[k0 v0] d IH]; simpl.
  - split; [discriminate | tauto].
  - destruct (String.eqb k0 k) eqn:E.
    + apply String.eqb_eq in E. split; auto.
    + apply String.eqb_neq in E. rewrite IH. split; [auto | intros [H|H]; congruence].
Qed.

Lemma get_keys d k v : Dict.get d k = Some v -> In k (Dict.keys d).
Proof.
  intros H. apply mem_keys. unfold Dict.mem. now rewrite H.
Qed.

Lemma get_In d k v : Dict.get d k = Some v -> In (k, v) d.
Proof.
  induction d as [|[k0 v0] d IH]; simpl; [discriminate|].
  destruct (String.eqb k0 k) eqn:E.
  - apply String.eqb_eq in E. intros [= ->]. left; congruence.
  - auto.
Qed.

Lemma In_get d k v : Dict.wf d -> In (k, v) d -> Dict.get d k = Some v.
Proof.
  unfold Dict.wf.
  induction d as [|[k0 v0] d IH]; simpl; [tauto|].
  intros Hnd [Heq|Hin]; inversion Hnd as [|? ? Hnotin Hnd']; subst.
  - inversion Heq; subst. now rewrite String.eqb_refl.
  - destruct (String.eqb k0 k) eqn:E.
    + apply String.eqb_eq in E; subst k0.
      exfalso; apply Hnotin. change k with (fst (k, v)). now apply in_map.
    + auto.
Qed.

Lemma keys_set d k v :
  Dict.keys (Dict.set d k v) =
  if Dict.mem d k then Dict.keys d else Dict.keys d ++ [k].
Proof.
  unfold Dict.mem.
  induction d as [|[k0 v0] d IH]; simpl; [reflexivity|].
  destruct (String.eqb k0 k) eqn:E; simpl.
  - apply String.eqb_eq in E. now subst.
  - rewrite IH. now destruct (Dict.get d k).
Qed.

Lemma wf_set d k v : Dict.wf d -> Dict.wf (Dict.set d k v).
Proof.
  unfold Dict.wf. intros Hnd. rewrite keys_set.
  destruct (Dict.mem d k) eqn:E; [exact Hnd|].
  apply NoDup_app; [exact Hnd | repeat constructor; simpl; tauto |].
  intros x Hx1 [<-|[]]. apply mem_keys in Hx1. congruence.
Qed.

Lemma wf_empty : Dict.wf (@Dict.empty V).
Proof. constructor. Qed.

End Facts.

End DictFacts.

(** ** The pivot index *)

Import DictFacts.

Lemma pivot_body_eq (idx : PivotIndex) (r : Row) :
  pivot_body idx r =
  Ok (if recognized (algo r)
      then Dict.set idx (file r)
             (Dict.set (Dict.get_or idx (file r) Dict.empty) (algo r) r)
      else idx).
Proof.
  unfold pivot_body, Dict.mem, Dict.get_or, Dict.getitem.
  destruct (recognized (algo r)); simpl; [|reflexivity].
  destruct (Dict.get idx (file r)) as [inner|] eqn:G; simpl.
  - now rewrite G.
  - rewrite get_set_same. simpl. now rewrite set_set_same.
Qed.

Lemma last_record_snoc (rows : list Row) (r : Row) (f a : string) :
  last_record (rows ++ [r]) f a =
  if String.eqb (file r) f && String.eqb (algo r) a then Some r
  else last_record rows f a.
Proof. unfold last_record. now rewrite rev_app_distr. Qed.

Lemma pivot_inv_step (rows : list Row) (idx : PivotIndex) (r : Row) :
  pivot_inv rows idx ->
  exists idx', pivot_body idx r = Ok idx' /\ pivot_inv (rows ++ [r]) idx'.
Proof.
  intros (Hwf & Hin & Hlk).
  rewrite pivot_body_eq. eexists; split; [reflexivity|].
  destruct (recognized (algo r)) eqn:Hr.
  - repeat split.
    + now apply wf_set.
    + intros f algos. destruct (String.eqb_spec (file r) f) as [<-|Hne].
      * rewrite get_set_same. intros [= <-]. apply wf_set.
        unfold Dict.get_or. destruct (Dict.get idx (file r)) eqn:G;
          [eapply Hin; eassumption | apply wf_empty].
      * rewrite get_set_other by exact Hne. apply Hin.
    + intros f a. rewrite last_record_snoc. unfold lookup.
      destruct (String.eqb_spec (file r) f) as [<-|Hne]; simpl.
      * rewrite get_set_same.
        destruct (String.eqb_spec (algo r) a) as [<-|Hna].
        -- now rewrite get_set_same, Hr.
        -- rewrite get_set_other by exact Hna.
           rewrite <- Hlk. unfold lookup, Dict.get_or.
           now destruct (Dict.get idx (file r)).
      * rewrite get_set_other by exact Hne. apply Hlk.
  - repeat split; [exact Hwf | exact Hin |].
    intros f a. rewrite last_record_snoc, Hlk.
    destruct (recognized a) eqn:Ha; [|reflexivity].
    destruct (String.eqb_spec (algo r) a) as [<-|Hna]; [congruence|].
    now rewrite andb_false_r.
Qed.

Lemma pivot_by_file_inv (rows : list Row) :
  exists idx, pivot_by_file rows = Ok idx /\ pivot_inv rows idx.
Proof.
  unfold pivot_by_file.
  induction rows as [|r rows IH] using rev_ind.
  - exists Dict.empty; split; [reflexivity|].
    repeat split; [apply wf_empty | discriminate |].
    intros f a. now destruct (recognized a).
  - destruct IH as (idx & Hrun & Hinv).
    destruct (pivot_inv_step rows idx r Hinv) as (idx' & Hstep & Hinv').
    exists idx'. split; [|exact Hinv'].
    rewrite for_each_app, Hrun. simpl. now rewrite Hstep.
Qed.

Lemma recognized_cases (a : string) :
  recognized a = true -> a = "SHA-256" \/ a = "PH128".
Proof.
  unfold recognized. intros H. apply orb_true_iff in H.
  destruct H as [H|H]; apply String.eqb_eq in H; auto.
Qed.

Lemma pivot_skips_unrecognized (rows : list Row) (acc : PivotIndex) :
  for_each pivot_body (filter (fun r => recognized (algo r)) rows) acc =
  for_each pivot_body rows acc.
Proof.
  revert acc; induction rows as [|r rows IH]; intros acc; simpl; [reflexivity|].
  destruct (recognized (algo r)) eqn:Hr; simpl.
  - destruct (pivot_body acc r); simpl; [apply IH | reflexivity].
  - rewrite pivot_body_eq, Hr. simpl. apply IH.
Qed.

(** C5: the pivot index built from any record list has no algorithm key
    other than "SHA-256" and "PH128"; the records of any other algorithm
    are dropped without an error and leave the index exactly as it would be
    had they not been in the input. *)
Theorem pivot_only_recognized (rows : list Row) :
  exists idx,
    pivot_by_file rows = Ok idx
    /\ (forall f algos a,
          Dict.get idx f = Some algos -> In a (Dict.keys algos) ->
          a = "SHA-256" \/ a = "PH128")
    /\ pivot_by_file (filter (fun r => recognized (algo r)) rows) = Ok idx.
Proof.
  destruct (pivot_by_file_inv rows) as (idx & Hrun & _ & _ & Hlk).
  exists idx. split; [exact Hrun|]. split.
  - intros f algos a Hget Hin.
    apply mem_keys in Hin. unfold Dict.mem in Hin.
    destruct (Dict.get algos a) as [r|] eqn:Ha; [|discriminate].
    specialize (Hlk f a). unfold lookup in Hlk. rewrite Hget, Ha in Hlk.
    destruct (recognized a) eqn:Hr; [|discriminate].
    now apply recognized_cases.
  - unfold pivot_by_file in *. now rewrite pivot_skips_unrecognized.
Qed.

(** C7: for every record list the pivot index is built without an error and
    keeps at most one record per file and recognized algorithm (no key is
    repeated at either level), namely the last record of the input with
    that file and algorithm. *)
Theorem pivot_last_record_wins (rows : list Row) :
  exists idx,
    pivot_by_file rows = Ok idx
    /\ Dict.wf idx
    /\ (forall f algos, Dict.get idx f = Some algos -> Dict.wf algos)
    /\ (forall f a, recognized a = true -> lookup idx f a = last_record rows f a).
Proof.
  destruct (pivot_by_file_inv rows) as (idx & Hrun & Hwf & Hin & Hlk).
  exists idx. repeat split; try assumption.
  intros f a Ha. now rewrite Hlk, Ha.
Qed.

(** ** The loops of the renderers *)

Lemma has_both_pairs (f : string) (algos : Dict.t Row) :
  has_both algos = true ->
  exists sha ph,
    Dict.get algos "SHA-256" = Some sha /\ Dict.get algos "PH128" = Some ph
    /\ pairs [(f, algos)] = [(f, sha, ph)].
Proof.
  unfold has_both, Dict.mem, pairs; simpl.
  destruct (Dict.get algos "SHA-256") as [sha|]; [|discriminate].
  destruct (Dict.get algos "PH128") as [ph|]; [|discriminate].
  intros _. now exists sha, ph.
Qed.

Lemma not_both_pairs (f : string) (algos : Dict.t Row) :
  has_both algos = false -> pairs [(f, algos)] = [].
Proof.
  unfold has_both, Dict.mem, pairs; simpl.
  destruct (Dict.get algos "SHA-256"); [|reflexivity].
  destruct (Dict.get algos "PH128"); [discriminate | reflexivity].
Qed.

Lemma pairs_cons (item : string * Dict.t Row) (items : list (string * Dict.t Row)) :
  pairs (item :: items) = pairs [item] ++ pairs items.
Proof. unfold pairs; simpl. now rewrite app_nil_r. Qed.

Lemma time_loop (items : list (string * Dict.t Row))
    (labels : list string) (sha_times ph_times : list Py.float) :
  let sel := filter (fun t => negb (String.eqb (pair_name t) "TOTAL")) (pairs items) in
  for_each time_body items (labels, sha_times, ph_times) =
  Ok (labels ++ map pair_name sel,
      sha_times ++ map (fun t => elapsed_ms_med (pair_sha t)) sel,
      ph_times ++ map (fun t => elapsed_ms_med (pair_ph t)) sel).
Proof.
  revert labels sha_times ph_times.
  induction items as [|[f algos] items IH]; intros labels sha_times ph_times.
  - simpl. now rewrite !app_nil_r.
  - cbn zeta in *. rewrite pairs_cons, filter_app, !map_app.
    cbn [for_each time_body].
    destruct (String.eqb f "TOTAL") eqn:Ht.
    + cbn [bind]. rewrite IH.
      destruct (has_both algos) eqn:Hb.
      * destruct (has_both_pairs f algos Hb) as (sha & ph & _ & _ & ->).
        cbn [filter pair_name fst]. now rewrite Ht.
      * now rewrite (not_both_pairs f algos Hb).
    + destruct (has_both algos) eqn:Hb.
      * destruct (has_both_pairs f algos Hb) as (sha & ph & Hs & Hp & ->).
        unfold Dict.getitem. rewrite Hs, Hp. cbn [bind]. rewrite IH.
        cbn [filter pair_name fst map]. rewrite Ht. cbn [negb map app].
        now rewrite <- !app_assoc.
      * cbn [bind]. rewrite IH. now rewrite (not_both_pairs f algos Hb).
Qed.

Lemma speedup_loop (items : list (string * Dict.t Row))
    (labels : list string) (speedups : list Py.float) :
  let sel := filter pair_nonzero (pairs items) in
  for_each speedup_body items (labels, speedups) =
  Ok (labels ++ map pair_name sel,
      speedups ++
      map (fun t => SFdiv Py.prec Py.emax (throughput_mib_s (pair_ph t))
                          (throughput_mib_s (pair_sha t))) sel).
Proof.
  revert labels speedups.
  induction items as [|[f algos] items IH]; intros labels speedups.
  - simpl. now rewrite !app_nil_r.
  - cbn zeta in *. rewrite pairs_cons, filter_app, !map_app.
    cbn [for_each speedup_body].
    destruct (has_both algos) eqn:Hb.
    + destruct (has_both_pairs f algos Hb) as (sha & ph & Hs & Hp & ->).
      unfold Dict.getitem. rewrite Hs, Hp. cbn [bind filter].
      change (pair_nonzero (f, sha, ph))
        with (Py.float_bool (throughput_mib_s sha)
              && Py.float_bool (throughput_mib_s ph)).
      destruct (Py.float_bool (throughput_mib_s sha)
                && Py.float_bool (throughput_mib_s ph)) eqn:Hnz.
      * apply andb_true_iff in Hnz. destruct Hnz as [Hs0 _].
        unfold Py.truediv. rewrite Hs0. cbn [bind]. rewrite IH.
        cbn [map app pair_name pair_sha pair_ph fst snd].
        now rewrite <- !app_assoc.
      * cbn [bind]. now rewrite IH.
    + cbn [bind]. rewrite IH. now rewrite (not_both_pairs f algos Hb).
Qed.

Lemma all_labels_pairs (items : list (string * Dict.t Row)) :
  map fst (filter (fun item => has_both (snd item)) items) = map pair_name (pairs items).
Proof.
  induction items as [|[f algos] items IH]; [reflexivity|].
  rewrite pairs_cons, map_app. cbn [filter snd].
  destruct (has_both algos) eqn:Hb.
  - destruct (has_both_pairs f algos Hb) as (sha & ph & _ & _ & ->).
    cbn. now rewrite IH.
  - now rewrite (not_both_pairs f algos Hb).
Qed.

(** ** Pairs and lookups *)

Lemma pairs_In (idx : PivotIndex) (f : string) (sha ph : Row) :
  Dict.wf idx ->
  In (f, sha, ph) (pairs (Dict.items idx)) <->
  lookup idx f "SHA-256" = Some sha /\ lookup idx f "PH128" = Some ph.
Proof.
  intros Hwf. unfold pairs, lookup, Dict.items. rewrite in_flat_map. split.
  - intros ([k algos] & Hin & Ht). cbn [fst snd] in Ht.
    destruct (Dict.get algos "SHA-256") as [s|] eqn:Hs; [|destruct Ht].
    destruct (Dict.get algos "PH128") as [p|] eqn:Hp; [|destruct Ht].
    destruct Ht as [Ht|[]]. inversion Ht; subst.
    now rewrite (In_get idx f algos Hwf Hin).
  - destruct (Dict.get idx f) as [algos|] eqn:Hg; [|intros [H _]; discriminate].
    intros [Hs Hp]. exists (f, algos). split; [now apply get_In|].
    cbn [fst snd]. rewrite Hs, Hp. now left.
Qed.

Lemma pairs_names_on (idx : PivotIndex) (items : list (string * Dict.t Row))
    (P : string * Row * Row -> bool) :
  (forall k algos, In (k, algos) items -> Dict.get idx k = Some algos) ->
  map pair_name (filter P (pairs items)) =
  filter (fun f =>
            match lookup idx f "SHA-256", lookup idx f "PH128" with
            | Some sha, Some ph => P (f, sha, ph)
            | _, _ => false
            end) (Dict.keys items).
Proof.
  set (Q := fun f => match lookup idx f "SHA-256", lookup idx f "PH128" with
                     | Some sha, Some ph => P (f, sha, ph)
                     | _, _ => false
                     end).
  induction items as [|[k algos] items IH]; intros Hget; [reflexivity|].
  rewrite pairs_cons, filter_app, map_app.
  rewrite IH by (intros k' a' H'; apply Hget; now right).
  cbn [Dict.keys map fst filter].
  assert (HQ : Q k = match Dict.get algos "SHA-256", Dict.get algos "PH128" with
                     | Some sha, Some ph => P (k, sha, ph)
                     | _, _ => false
                     end).
  { unfold Q, lookup. now rewrite (Hget k algos (or_introl eq_refl)). }
  rewrite HQ. unfold pairs at 1; cbn [flat_map fst snd].
  destruct (Dict.get algos "SHA-256") as [s|]; [|reflexivity].
  destruct (Dict.get algos "PH128") as [p|]; [|reflexivity].
  cbn [app filter]. now destruct (P (k, s, p)).
Qed.

Lemma pairs_names (idx : PivotIndex) (P : string * Row * Row -> bool) :
  Dict.wf idx ->
  map pair_name (filter P (pairs (Dict.items idx))) =
  filter (fun f =>
            match lookup idx f "SHA-256", lookup idx f "PH128" with
            | Some sha, Some ph => P (f, sha, ph)
            | _, _ => false
            end) (Dict.keys idx).
Proof.
  intros Hwf. apply pairs_names_on. intros k algos. now apply In_get.
Qed.

Lemma qualifies_lookup (idx : PivotIndex) (f : string) :
  qualifies idx f =
  match lookup idx f "SHA-256", lookup idx f "PH128" with
  | Some _, Some _ => true
  | _, _ => false
  end.
Proof.
  unfold qualifies, lookup, has_both, Dict.mem.
  destruct (Dict.get idx f) as [algos|]; [|reflexivity].
  now destruct (Dict.get algos "SHA-256"), (Dict.get algos "PH128").
Qed.

Lemma filter_true {A : Type} (l : list A) : filter (fun _ => true) l = l.
Proof. induction l; simpl; congruence. Qed.

(** ** What the drawing calls leave on the axes *)

Lemma length_range (n : nat) : List.length (Py.range n) = n.
Proof. unfold Py.range. now rewrite length_map, length_seq. Qed.

Lemma bar_ok (ax : Axes) (x height : list Py.float) (width : Py.float)
    (label : option string) :
  List.length x = List.length height ->
  exists c,
    bar ax x height width label = Ok (add_container ax c, c)
    /\ heights c = height /\ bar_label c = label.
Proof.
  intros Hlen. unfold bar. rewrite Hlen, Nat.eqb_refl.
  eexists; split; [reflexivity|]. split; [|reflexivity].
  unfold heights; cbn [patches]. rewrite map_map; cbn [rect_height].
  clear ax width label. revert height Hlen.
  induction x as [|a x IH]; intros [|h height] Hlen; try discriminate; simpl;
    [reflexivity|].
  f_equal. apply IH. now inversion Hlen.
Qed.

Lemma bar_labels_eq (ax : Axes) (bars : BarContainer) :
  _bar_labels ax bars =
  {| grid_y := grid_y ax; containers := containers ax; title := title ax;
     xlabel := xlabel ax; ylabel := ylabel ax; xticks := xticks ax;
     xticklabels := xticklabels ax; has_legend := has_legend ax;
     texts := texts ax ++ map bar_text (patches bars) |}.
Proof.
  unfold _bar_labels. generalize (patches bars) as bs. intros bs; revert ax.
  induction bs as [|b bs IH]; intros ax; simpl.
  - rewrite app_nil_r. now destruct ax.
  - rewrite IH. unfold text; simpl. now rewrite <- app_assoc.
Qed.

Lemma bar_text_s (c : BarContainer) :
  map text_s (map bar_text (patches c)) = map Py.format_2f (heights c).
Proof. unfold heights. now rewrite !map_map. Qed.

Lemma bar_text_y (c : BarContainer) :
  map text_y (map bar_text (patches c)) = heights c.
Proof. unfold heights. now rewrite !map_map. Qed.

(** ** The runs of the renderers *)

Lemma time_plot_blank (rows : list Row) (out_png : Path.t) (idx : PivotIndex) :
  pivot_by_file rows = Ok idx ->
  let sel := filter (fun t => negb (String.eqb (pair_name t) "TOTAL"))
                    (pairs (Dict.items idx)) in
  exists fig bars_sha bars_ph,
    make_time_plot rows out_png blank_world =
      (after blank_world (Savefig out_png fig 120), Ok tt)
    /\ xticklabels fig = map pair_name sel
    /\ xticks fig = Py.range (List.length sel)
    /\ containers fig = [bars_sha; bars_ph]
    /\ heights bars_sha = map (fun t => elapsed_ms_med (pair_sha t)) sel
    /\ heights bars_ph = map (fun t => elapsed_ms_med (pair_ph t)) sel
    /\ texts fig = map bar_text (patches bars_sha) ++ map bar_text (patches bars_ph).
Proof.
  intros Hidx sel.
  unfold make_time_plot, bindM, lift, tight_layout, savefig, emit.
  rewrite Hidx. cbn [bind]. rewrite time_loop. fold sel. cbn [bind app].
  rewrite !length_map.
  match goal with |- context [bar ?ax ?x ?h ?wd ?l] =>
    destruct (bar_ok ax x h wd l) as (c1 & -> & Hh1 & _);
      [now rewrite !length_map, length_range|]
  end.
  cbn [bind].
  match goal with |- context [bar ?ax ?x ?h ?wd ?l] =>
    destruct (bar_ok ax x h wd l) as (c2 & -> & Hh2 & _);
      [now rewrite !length_map, length_range|]
  end.
  cbn [bind]. unfold set_xticks.
  rewrite length_range, length_map, Nat.eqb_refl. cbn [bind].
  rewrite !bar_labels_eq.
  eexists _, c1, c2. split; [reflexivity|].
  cbn [xticklabels xticks containers texts legend set_ylabel set_xlabel set_title
       add_container grid subplots app].
  now repeat split.
Qed.

Lemma speedup_plot_blank (rows : list Row) (out_png : Path.t) (idx : PivotIndex) :
  pivot_by_file rows = Ok idx ->
  let sel := filter pair_nonzero (pairs (Dict.items idx)) in
  exists fig bars,
    make_speedup_plot rows out_png blank_world =
      (after blank_world (Savefig out_png fig 120), Ok tt)
    /\ xticklabels fig = map pair_name sel
    /\ xticks fig = Py.range (List.length sel)
    /\ containers fig = [bars]
    /\ heights bars =
       map (fun t => SFdiv Py.prec Py.emax (throughput_mib_s (pair_ph t))
                           (throughput_mib_s (pair_sha t))) sel
    /\ texts fig = map bar_text (patches bars).
Proof.
  intros Hidx sel.
  unfold make_speedup_plot, bindM, lift, tight_layout, savefig, emit.
  rewrite Hidx. cbn [bind]. rewrite speedup_loop. fold sel. cbn [bind app].
  rewrite !length_map.
  match goal with |- context [bar ?ax ?x ?h ?wd ?l] =>
    destruct (bar_ok ax x h wd l) as (c & -> & Hh & _);
      [now rewrite !length_map, length_range|]
  end.
  cbn [bind]. unfold set_xticks.
  rewrite length_range, length_map, Nat.eqb_refl. cbn [bind].
  rewrite !bar_labels_eq.
  eexists _, c. split; [reflexivity|].
  cbn [xticklabels xticks containers texts legend set_ylabel set_xlabel set_title
       add_container grid subplots app].
  now repeat split.
Qed.

(** ** The order of str *)

Lemma string_leb_trans (a b c : string) :
  String.leb a b = true -> String.leb b c = true -> String.leb a c = true.
Proof.
  unfold String.leb. revert b c.
  induction a as [|x a IH]; intros [|y b] [|z c]; simpl; try easy.
  unfold Ascii.compare.
  destruct (N.compare_spec (N_of_ascii x) (N_of_ascii y)) as [Exy|Lxy|Gxy];
    destruct (N.compare_spec (N_of_ascii y) (N_of_ascii z)) as [Eyz|Lyz|Gyz];
    destruct (N.compare_spec (N_of_ascii x) (N_of_ascii z)) as [Exz|Lxz|Gxz];
    try easy; try lia.
  apply IH.
Qed.

Lemma sorted_spec (l : list string) :
  Permutation l (Py.sorted l)
  /\ StronglySorted (fun a b => String.leb a b = true) (Py.sorted l).
Proof.
  split.
  - apply Py.StringSort.Permuted_sort.
  - apply Py.StringSort.StronglySorted_sort.
    intros a b c. apply string_leb_trans.
Qed.

Lemma in_list_In (f : string) (l : list string) : in_list f l = true <-> In f l.
Proof.
  unfold in_list. rewrite existsb_exists. split.
  - intros (x & Hx & E). apply String.eqb_eq in E. now subst.
  - intros H. exists f. split; [exact H | apply String.eqb_refl].
Qed.

Lemma pivot_by_file_wf (rows : list Row) (idx : PivotIndex) :
  pivot_by_file rows = Ok idx -> pivot_inv rows idx.
Proof.
  intros H. destruct (pivot_by_file_inv rows) as (idx' & H' & Hinv).
  congruence.
Qed.

Lemma all_names (idx : PivotIndex) :
  Dict.wf idx ->
  map pair_name (pairs (Dict.items idx)) = filter (qualifies idx) (Dict.keys idx).
Proof.
  intros Hwf.
  rewrite <- (filter_true (pairs (Dict.items idx))).
  rewrite (pairs_names idx (fun _ => true) Hwf).
  apply filter_ext. intros f. now rewrite qualifies_lookup.
Qed.

Lemma throughput_of_ok (idx : PivotIndex) (a f : string) :
  qualifies idx f = true -> a = "SHA-256" \/ a = "PH128" ->
  throughput_of idx a f = Ok (throughput_at idx a f).
Proof.
  unfold qualifies, throughput_of, throughput_at, lookup, Dict.getitem, has_both,
    Dict.mem.
  destruct (Dict.get idx f) as [algos|]; [|discriminate].
  destruct (Dict.get algos "SHA-256") as [sha|] eqn:Hs; [|discriminate].
  destruct (Dict.get algos "PH128") as [ph|] eqn:Hp; [|discriminate].
  intros _ [->| ->]; cbn [bind]; [now rewrite Hs | now rewrite Hp].
Qed.

Lemma throughput_labels_qualify (idx : PivotIndex) (f : string) :
  In f (throughput_labels idx) -> qualifies idx f = true.
Proof.
  unfold throughput_labels. rewrite in_app_iff. intros [H|H].
  - apply filter_In in H. destruct H as [_ H].
    apply in_list_In, filter_In in H. tauto.
  - destruct (sorted_spec
                (filter (fun f => negb (in_list f preferred))
                        (filter (qualifies idx) (Dict.keys idx)))) as [Hperm _].
    apply Permutation_sym in Hperm.
    apply (Permutation_in _ Hperm) in H.
    apply filter_In in H. destruct H as [H _].
    apply filter_In in H. tauto.
Qed.

Lemma throughput_plot_blank (rows : list Row) (out_png : Path.t)
    (title0 : option string) (idx : PivotIndex) :
  pivot_by_file rows = Ok idx ->
  let labels := throughput_labels idx in
  exists fig bars_sha bars_ph,
    make_throughput_plot rows out_png title0 blank_world =
      (after blank_world (Savefig out_png fig 120), Ok tt)
    /\ xticklabels fig = labels
    /\ xticks fig = Py.range (List.length labels)
    /\ containers fig = [bars_sha; bars_ph]
    /\ heights bars_sha = map (throughput_at idx "SHA-256") labels
    /\ heights bars_ph = map (throughput_at idx "PH128") labels
    /\ texts fig = map bar_text (patches bars_sha) ++ map bar_text (patches bars_ph)
    /\ title fig = title_or title0 default_title.
Proof.
  intros Hidx labels.
  destruct (pivot_by_file_wf rows idx Hidx) as (Hwf & _ & _).
  unfold make_throughput_plot, bindM, lift, tight_layout, savefig, emit.
  rewrite Hidx. cbn [bind]. cbn zeta.
  rewrite all_labels_pairs, (all_names idx Hwf).
  fold (throughput_labels idx). fold labels.
  rewrite (comprehension_total (throughput_of idx "SHA-256")
             (throughput_at idx "SHA-256") labels)
    by (intros f Hf; apply throughput_of_ok;
        [now apply throughput_labels_qualify | now left]).
  cbn [bind].
  rewrite (comprehension_total (throughput_of idx "PH128")
             (throughput_at idx "PH128") labels)
    by (intros f Hf; apply throughput_of_ok;
        [now apply throughput_labels_qualify | now right]).
  cbn [bind].
  match goal with |- context [bar ?ax ?x ?h ?wd ?l] =>
    destruct (bar_ok ax x h wd l) as (c1 & -> & Hh1 & _);
      [now rewrite !length_map, length_range|]
  end.
  cbn [bind].
  match goal with |- context [bar ?ax ?x ?h ?wd ?l] =>
    destruct (bar_ok ax x h wd l) as (c2 & -> & Hh2 & _);
      [now rewrite !length_map, length_range|]
  end.
  cbn [bind]. unfold set_xticks.
  rewrite length_range, Nat.eqb_refl. cbn [bind].
  rewrite !bar_labels_eq.
  eexists _, c1, c2. split; [reflexivity|].
  cbn [xticklabels xticks containers texts title legend set_ylabel set_xlabel
       set_title add_container grid subplots app].
  now repeat split.
Qed.

(** *** From the run in the blank world to every world *)

Lemma saved_figure (r : result Axes) (out_png : Path.t) (fig : Axes) :
  (fig <<- lift r ;; _ <<- tight_layout fig ;; savefig out_png fig 120) blank_world =
    (after blank_world (Savefig out_png fig 120), Ok tt) ->
  r = Ok fig.
Proof.
  unfold bindM, lift, tight_layout, savefig, emit, after, extended.
  destruct r as [fig'|e]; [|discriminate]. cbn.
  intros H. inversion H. reflexivity.
Qed.

Lemma built_figure_draws (r : result Axes) (out_png : Path.t) (fig : Axes) :
  r = Ok fig ->
  draws (fig <<- lift r ;; _ <<- tight_layout fig ;; savefig out_png fig 120)
        out_png fig.
Proof.
  intros -> w.
  unfold bindM, lift, tight_layout, savefig, emit, outcome, after, extended.
  destruct (layout_error w fig); [reflexivity|].
  now destruct (save_error w out_png fig).
Qed.

Lemma time_plot_draws (rows : list Row) (out_png : Path.t) (fig : Axes) :
  make_time_plot rows out_png blank_world =
    (after blank_world (Savefig out_png fig 120), Ok tt) ->
  draws (make_time_plot rows out_png) out_png fig.
Proof.
  unfold make_time_plot. intros H. apply built_figure_draws.
  exact (saved_figure _ _ _ H).
Qed.

Lemma speedup_plot_draws (rows : list Row) (out_png : Path.t) (fig : Axes) :
  make_speedup_plot rows out_png blank_world =
    (after blank_world (Savefig out_png fig 120), Ok tt) ->
  draws (make_speedup_plot rows out_png) out_png fig.
Proof.
  unfold make_speedup_plot. intros H. apply built_figure_draws.
  exact (saved_figure _ _ _ H).
Qed.

Lemma throughput_plot_draws (rows : list Row) (out_png : Path.t)
    (title0 : option string) (fig : Axes) :
  make_throughput_plot rows out_png title0 blank_world =
    (after blank_world (Savefig out_png fig 120), Ok tt) ->
  draws (make_throughput_plot rows out_png title0) out_png fig.
Proof.
  unfold make_throughput_plot. intros H. apply built_figure_draws.
  exact (saved_figure _ _ _ H).
Qed.


Lemma draws_returns (m : M unit) (out_png : Path.t) (fig : Axes) (w w' : World) :
  draws m out_png fig -> m w = (w', Ok tt) ->
  accepted w out_png fig /\ w' = after w (Savefig out_png fig 120).
Proof.
  intros Hd. rewrite (Hd w). unfold outcome, accepted.
  destruct (layout_error w fig); [discriminate|].
  destruct (save_error w out_png fig); [discriminate|].
  intros [= <-]. now repeat split.
Qed.

Lemma draws_raises (m : M unit) (out_png : Path.t) (fig : Axes) (w w' : World)
    (e : exn) :
  draws m out_png fig -> m w = (w', Raise e) ->
  w' = w /\ (layout_error w fig = Some e \/ save_error w out_png fig = Some e).
Proof.
  intros Hd. rewrite (Hd w). unfold outcome.
  destruct (layout_error w fig) as [e1|]; [intros [= <- <-]; auto|].
  destruct (save_error w out_png fig) as [e2|]; [intros [= <- <-]; auto|].
  discriminate.
Qed.

(** ** The charts *)

Lemma float_bool_nonzero (x : Py.float) : Py.float_bool x = true <-> nonzero x.
Proof.
  unfold nonzero. destruct x; simpl; split; try congruence; try easy.
  intros H. now specialize (H s).
Qed.

Lemma nth_error_sel {B : Type} (sel : list (string * Row * Row))
    (val : string * Row * Row -> B) (i : nat) (f : string) :
  nth_error (map pair_name sel) i = Some f ->
  exists t, In t sel /\ pair_name t = f /\ nth_error (map val sel) i = Some (val t).
Proof.
  rewrite !nth_error_map.
  destruct (nth_error sel i) as [t|] eqn:Ht; [|discriminate].
  intros [= <-]. exists t. split; [eapply nth_error_In; eassumption | now split].
Qed.

Lemma lookup_get (idx : PivotIndex) (f a : string) (r : Row) :
  lookup idx f a = Some r ->
  exists algos, Dict.get idx f = Some algos /\ Dict.get algos a = Some r.
Proof.
  unfold lookup. destruct (Dict.get idx f) as [algos|]; [|discriminate].
  intros H. now exists algos.
Qed.

(** C1: for every record list the speedup renderer builds its chart without
    an error of its own, and then lays it out and saves it, raising only
    what these two calls of the drawing library raise.  A file name (TOTAL
    or any other) is one of the categories of that chart exactly when the
    pivot index holds a SHA-256 record and a PH128 record for it whose
    throughputs are both non-zero; and the bar of each category is the
    float quotient of the PH128 throughput by the SHA-256 throughput, the
    two being taken from the records as they are. *)
Theorem speedup_chart_categories (rows : list Row) (out_png : Path.t) :
  exists idx fig bars,
    pivot_by_file rows = Ok idx
    /\ draws (make_speedup_plot rows out_png) out_png fig
    /\ containers fig = [bars]
    /\ (forall f,
          In f (xticklabels fig) <->
          exists sha ph,
            lookup idx f "SHA-256" = Some sha /\ lookup idx f "PH128" = Some ph
            /\ nonzero (throughput_mib_s sha) /\ nonzero (throughput_mib_s ph))
    /\ (forall i f,
          nth_error (xticklabels fig) i = Some f ->
          exists sha ph,
            lookup idx f "SHA-256" = Some sha /\ lookup idx f "PH128" = Some ph
            /\ nth_error (heights bars) i =
               Some (SFdiv Py.prec Py.emax (throughput_mib_s ph) (throughput_mib_s sha))).
Proof.
  destruct (pivot_by_file_inv rows) as (idx & Hidx & Hwf & _ & _).
  destruct (speedup_plot_blank rows out_png idx Hidx)
    as (fig & bars & Hrun & Hlab & _ & Hcont & Hh & _).
  apply speedup_plot_draws in Hrun.
  exists idx, fig, bars. repeat split; try assumption.
  - rewrite Hlab, in_map_iff. intros ([[f' sha] ph] & Hname & Hin).
    cbn in Hname; subst f'. apply filter_In in Hin. destruct Hin as [Hin Hnz].
    apply (pairs_In idx f sha ph Hwf) in Hin. destruct Hin as [Hs Hp].
    apply andb_true_iff in Hnz. destruct Hnz as [Hnz1 Hnz2].
    exists sha, ph. repeat split; try assumption; now apply float_bool_nonzero.
  - intros (sha & ph & Hs & Hp & Hnz1 & Hnz2).
    rewrite Hlab, in_map_iff. exists (f, sha, ph). split; [reflexivity|].
    apply filter_In. split; [now apply pairs_In|].
    apply andb_true_iff. split; now apply float_bool_nonzero.
  - intros i f Hi. rewrite Hlab in Hi. rewrite Hh.
    destruct (nth_error_sel _
                (fun t => SFdiv Py.prec Py.emax (throughput_mib_s (pair_ph t))
                                (throughput_mib_s (pair_sha t))) i f Hi)
      as ([[f' sha] ph] & Hin & Hname & Hval).
    cbn in Hname; subst f'. apply filter_In in Hin. destruct Hin as [Hin _].
    apply (pairs_In idx f sha ph Hwf) in Hin. destruct Hin as [Hs Hp].
    exists sha, ph. now repeat split.
Qed.

(** *** Labels to two decimals *)


Lemma string_app_assoc (a b c : string) :
  ((a ++ b) ++ c)%string = (a ++ (b ++ c))%string.
Proof. induction a as [|x a IH]; simpl; [reflexivity | now rewrite IH]. Qed.




Lemma pairs_aligned {idx : PivotIndex} (sel : list (string * Row * Row))
    (field : Row -> Py.float) (fig : Axes) (bars_sha bars_ph : BarContainer) :
  Dict.wf idx ->
  (forall t, In t sel -> In t (pairs (Dict.items idx))) ->
  xticklabels fig = map pair_name sel ->
  containers fig = [bars_sha; bars_ph] ->
  heights bars_sha = map (fun t => field (pair_sha t)) sel ->
  heights bars_ph = map (fun t => field (pair_ph t)) sel ->
  aligned idx field fig.
Proof.
  intros Hwf Hsel Hlab Hcont Hs Hp.
  exists bars_sha, bars_ph. split; [exact Hcont|].
  rewrite Hlab, Hs, Hp, !length_map. repeat split.
  intros i f Hi.
  destruct (nth_error_sel sel (fun t => t) i f Hi) as ([[f' sha] ph] & Hin & Hn & Ht).
  cbn in Hn; subst f'. rewrite map_id in Ht.
  apply Hsel, (pairs_In idx f sha ph Hwf) in Hin. destruct Hin as [Hgs Hgp].
  apply lookup_get in Hgs. destruct Hgs as (algos & Hg & Hgs).
  apply lookup_get in Hgp. destruct Hgp as (algos' & Hg' & Hgp).
  assert (algos' = algos) by congruence; subst algos'.
  exists algos, sha, ph. rewrite !nth_error_map, Ht. now repeat split.
Qed.

Lemma sel_time_in (idx : PivotIndex) (t : string * Row * Row) :
  In t (filter (fun t => negb (String.eqb (pair_name t) "TOTAL"))
               (pairs (Dict.items idx))) ->
  In t (pairs (Dict.items idx)).
Proof. intros H. apply filter_In in H. tauto. Qed.


Lemma qualifies_get (idx : PivotIndex) (f : string) :
  qualifies idx f = true ->
  exists algos sha ph,
    Dict.get idx f = Some algos
    /\ Dict.get algos "SHA-256" = Some sha /\ Dict.get algos "PH128" = Some ph.
Proof.
  unfold qualifies, has_both, Dict.mem.
  destruct (Dict.get idx f) as [algos|]; [|discriminate].
  destruct (Dict.get algos "SHA-256") as [sha|] eqn:Hs; [|discriminate].
  destruct (Dict.get algos "PH128") as [ph|] eqn:Hp; [|discriminate].
  intros _. now exists algos, sha, ph.
Qed.

(** C10: for every record list the time renderer and the throughput
    renderer each build their chart without an error of their own (and then
    lay it out and save it, raising only what these two calls of the drawing
    library raise); in the time chart and in the throughput chart alike, the list of categories and the two lists of bar heights
    have the same length, and the i-th SHA-256 bar and the i-th PH128 bar
    show the two records the pivot index holds under the i-th category. *)
Theorem grouped_bars_aligned (rows : list Row) (time_png throughput_png : Path.t)
    (title0 : option string) :
  exists idx fig_time fig_throughput,
    pivot_by_file rows = Ok idx
    /\ draws (make_time_plot rows time_png) time_png fig_time
    /\ draws (make_throughput_plot rows throughput_png title0) throughput_png
             fig_throughput
    /\ aligned idx elapsed_ms_med fig_time
    /\ aligned idx throughput_mib_s fig_throughput.
Proof.
  destruct (pivot_by_file_inv rows) as (idx & Hidx & Hwf & _ & _).
  destruct (time_plot_blank rows time_png idx Hidx)
    as (fig1 & a1 & b1 & Hrun1 & Hlab1 & _ & Hcont1 & Ha1 & Hb1 & _).
  destruct (throughput_plot_blank rows throughput_png title0 idx Hidx)
    as (fig2 & a2 & b2 & Hrun2 & Hlab2 & _ & Hcont2 & Ha2 & Hb2 & _).
  apply time_plot_draws in Hrun1. apply throughput_plot_draws in Hrun2.
  exists idx, fig1, fig2. repeat split; try assumption.
  - exact (pairs_aligned _ elapsed_ms_med fig1 a1 b1 Hwf (sel_time_in idx)
             Hlab1 Hcont1 Ha1 Hb1).
  - exists a2, b2. split; [exact Hcont2|].
    rewrite Hlab2, Ha2, Hb2, !length_map. repeat split.
    intros i f Hi. pose proof (nth_error_In _ _ Hi) as Hin.
    apply throughput_labels_qualify, qualifies_get in Hin.
    destruct Hin as (algos & sha & ph & Hg & Hs & Hp).
    exists algos, sha, ph. rewrite !nth_error_map, Hi.
    unfold throughput_at, lookup. cbn [option_map]. now rewrite Hg, Hs, Hp.
Qed.

Lemma qualifies_key (idx : PivotIndex) (f : string) :
  qualifies idx f = true -> In f (Dict.keys idx).
Proof.
  unfold qualifies. destruct (Dict.get idx f) as [algos|] eqn:Hg; [|discriminate].
  intros _. now apply get_keys with algos.
Qed.

Lemma in_all_labels (idx : PivotIndex) (f : string) :
  in_list f (filter (qualifies idx) (Dict.keys idx)) = qualifies idx f.
Proof.
  destruct (qualifies idx f) eqn:Hq.
  - apply in_list_In, filter_In. split; [now apply qualifies_key | exact Hq].
  - destruct (in_list f (filter (qualifies idx) (Dict.keys idx))) eqn:Hi;
      [|reflexivity].
    apply in_list_In, filter_In in Hi. destruct Hi; congruence.
Qed.


(** ** The row reader *)

Lemma read_row_ok (r : CsvRow) (a f : string) :
  Dict.get r "algo" = Some (Some a) -> Dict.get r "file" = Some (Some f) ->
  read_row r =
  Ok {| algo := Py.strip a;
        file := Py.strip f;
        B_bytes := Py.int (cell_text r "B_bytes");
        bytes := int_or (Py.int (cell_text r "bytes")) 0;
        elapsed_ms_med :=
          float_or (Py.float_of_str (cell_text r "elapsed_ms_med")) Py.zero;
        throughput_mib_s :=
          float_or (Py.float_of_str (cell_text r "throughput_mib_s")) Py.zero;
        sum_hex := cell_text r "sum_hex" |}.
Proof.
  intros Ha Hf. unfold read_row, Dict.getitem. rewrite Ha, Hf. reflexivity.
Qed.

Lemma absent_blank (r : CsvRow) (col : string) : absent r col -> blank (cell r col).
Proof.
  unfold absent, blank, cell, Dict.get_or. intros [-> | ->]; reflexivity.
Qed.

Lemma blank_fails (x : option string) :
  blank x -> to_int x = None /\ to_float x = None.
Proof.
  unfold blank, to_int, to_float. intros ->. split; reflexivity.
Qed.

(** C4: a row that has its two text cells is read without an error whatever
    its numeric cells hold; a declared-size cell that fails to parse gives
    None, and a byte-count, elapsed-time or throughput cell that fails to
    parse gives 0, 0.0 and 0.0; an absent cell is a blank one, and a blank
    (empty or whitespace-only) cell fails both parses. *)
Theorem numeric_coercion_defaults (r : CsvRow) (a f : string) :
  Dict.get r "algo" = Some (Some a) ->
  Dict.get r "file" = Some (Some f) ->
  exists rec,
    read_row r = Ok rec
    /\ (to_int (cell r "B_bytes") = None -> B_bytes rec = None)
    /\ (to_int (cell r "bytes") = None -> bytes rec = 0)
    /\ (to_float (cell r "elapsed_ms_med") = None -> elapsed_ms_med rec = Py.zero)
    /\ (to_float (cell r "throughput_mib_s") = None ->
        throughput_mib_s rec = Py.zero)
    /\ (forall col, absent r col -> blank (cell r col))
    /\ (forall x, blank x -> to_int x = None /\ to_float x = None).
Proof.
  intros Ha Hf. eexists. split; [exact (read_row_ok r a f Ha Hf)|].
  unfold to_int, to_float. fold (cell_text r "B_bytes") (cell_text r "bytes")
    (cell_text r "elapsed_ms_med") (cell_text r "throughput_mib_s").
  cbn [B_bytes bytes elapsed_ms_med throughput_mib_s].
  repeat split; try (intros ->; reflexivity); try assumption.
  - now apply absent_blank.
  - now apply blank_fails.
  - now apply blank_fails.
Qed.

Lemma numeric_coercion_defaults_witness :
  exists rec,
    read_row sample_bad_row = Ok rec
    /\ B_bytes rec = None /\ bytes rec = 0
    /\ elapsed_ms_med rec = Py.zero /\ throughput_mib_s rec = Py.zero.
Proof.
  destruct (numeric_coercion_defaults sample_bad_row "PH128" "a.bin"
              eq_refl eq_refl)
    as (rec & Hrun & Hb & Hn & He & Ht & _).
  exists rec. split; [exact Hrun|].
  split; [apply Hb; reflexivity|].
  split; [apply Hn; reflexivity|].
  split; [apply He; reflexivity | apply Ht; reflexivity].
Defined.

(** *** The integer parse has no float fallback *)

Lemma digitpart_point (s : string) (acc : Z) (prev : bool) :
  has_char "." s = true -> Py.digitpart acc prev s = None.
Proof.
  revert acc prev. induction s as [|c s IH]; intros acc prev; simpl; [discriminate|].
  destruct (Ascii.eqb_spec c ".") as [->|Hc]; simpl; [reflexivity|].
  intros H. destruct (Ascii.eqb c "_").
  - destruct prev; [now apply IH | reflexivity].
  - destruct (Py.digit_val c); [now apply IH | reflexivity].
Qed.

Section Strip.
Variable sp : ascii -> bool.
Hypothesis point_kept : sp "." = false.

Lemma lstrip_keeps_point (s : string) :
  has_char "." s = true -> has_char "." (Py.lstrip_by sp s) = true.
Proof.
  induction s as [|c s IH]; simpl; [discriminate|].
  destruct (sp c) eqn:Hc; [|now simpl].
  destruct (Ascii.eqb_spec c ".") as [->|_]; [congruence | exact IH].
Qed.

Lemma rstrip_keeps_point (s : string) :
  has_char "." s = true -> has_char "." (Py.rstrip_by sp s) = true.
Proof.
  induction s as [|c s IH]; simpl; [discriminate|].
  destruct (Ascii.eqb_spec c ".") as [->|_]; simpl.
  - intros _. rewrite point_kept.
    destruct (Py.rstrip_by sp s); simpl; reflexivity.
  - intros H. specialize (IH H).
    destruct (Py.rstrip_by sp s) as [|c' t]; [discriminate|].
    simpl in *. rewrite IH. apply orb_true_r.
Qed.

End Strip.

Lemma int_rejects_point (s : string) : has_char "." s = true -> Py.int s = None.
Proof.
  intros H. unfold Py.int, Py.c_strip.
  apply (lstrip_keeps_point Py.c_isspace eq_refl) in H.
  apply (rstrip_keeps_point Py.c_isspace eq_refl) in H.
  destruct (Py.rstrip_by Py.c_isspace (Py.lstrip_by Py.c_isspace s)) as [|c t];
    [discriminate|].
  destruct (Ascii.eqb_spec c "+") as [->|Hp].
  { simpl in H. now rewrite digitpart_point. }
  destruct (Ascii.eqb_spec c "-") as [->|Hm].
  { simpl in H. now rewrite digitpart_point. }
  assert (E : Py.digitpart 0 false (String c t) = None) by now apply digitpart_point.
  destruct c as [[] [] [] [] [] [] [] []]; try exact E; congruence.
Qed.

(** C6, as amended: a row that has its two text cells is read without an
    error, and each numeric field comes from the one parse of its column:
    the integer parse for the declared size and the byte count, the float
    parse for the elapsed time and the throughput, a failed parse or a blank
    cell giving None, 0, 0.0 and 0.0; there is no fallback from the integer
    parse to the float parse, so a byte-count cell written with a decimal
    point gives the default 0. *)
Theorem coercion_single_parse (r : CsvRow) (a f : string) :
  Dict.get r "algo" = Some (Some a) ->
  Dict.get r "file" = Some (Some f) ->
  exists rec,
    read_row r = Ok rec
    /\ B_bytes rec = Py.int (cell_text r "B_bytes")
    /\ bytes rec = int_or (Py.int (cell_text r "bytes")) 0
    /\ elapsed_ms_med rec =
       float_or (Py.float_of_str (cell_text r "elapsed_ms_med")) Py.zero
    /\ throughput_mib_s rec =
       float_or (Py.float_of_str (cell_text r "throughput_mib_s")) Py.zero
    /\ (has_char "." (cell_text r "bytes") = true -> bytes rec = 0).
Proof.
  intros Ha Hf. eexists. split; [exact (read_row_ok r a f Ha Hf)|].
  cbn [B_bytes bytes elapsed_ms_med throughput_mib_s].
  repeat split. intros H. now rewrite (int_rejects_point _ H).
Qed.

Lemma coercion_single_parse_witness :
  exists rec, read_row float_bytes_row = Ok rec /\ bytes rec = 0.
Proof.
  destruct (coercion_single_parse float_bytes_row "SHA-256" "a.bin"
              eq_refl eq_refl)
    as (rec & Hrun & _ & _ & _ & _ & Hpoint).
  exists rec. split; [exact Hrun | apply Hpoint; reflexivity].
Defined.

(** C6, as stated, fails: on the byte-count text "1.5" the coercion the
    specification describes falls back to the float parse and yields 1.5,
    whereas [to_int] yields None and the record gets the default 0. *)
Lemma float_text_in_bytes_counterexample :
  spec_coerce (cell float_bytes_row "bytes")
    = Some (NFloat (S754_finite false 6755399441055744 (-52)))
  /\ to_int (cell float_bytes_row "bytes") = None
  /\ exists rec, read_row float_bytes_row = Ok rec /\ bytes rec = 0.
Proof.
  split; [reflexivity|]. split; [reflexivity|].
  eexists. split; reflexivity.
Qed.

(** ** The empty table and the entry point *)






Lemma extended_app (w : World) (l1 l2 : list Event) :
  extended (extended w l1) l2 = extended w (l1 ++ l2).
Proof. unfold extended; cbn. now rewrite app_assoc. Qed.


Lemma main_outcome (args : Args) (w : World) (rows : list Row)
    (fig_t fig_s fig_p : Axes) :
  read_rows (arg_csv args) w = (w, Ok rows) ->
  let base := Path.stem (arg_csv args) in
  let time_png := Path.div (arg_outdir args) (base ++ "_time.png")%string in
  let speedup_png := Path.div (arg_outdir args) (base ++ "_speedup.png")%string in
  let throughput_png :=
    Path.div (arg_outdir args) (base ++ "_throughput.png")%string in
  draws (make_time_plot rows time_png) time_png fig_t ->
  draws (make_speedup_plot rows speedup_png) speedup_png fig_s ->
  draws (make_throughput_plot rows throughput_png (Some (arg_title args)))
        throughput_png fig_p ->
  main args w =
  match layout_error w fig_t, save_error w time_png fig_t with
  | Some e, _ | None, Some e => (w, Raise e)
  | None, None =>
      match layout_error w fig_s, save_error w speedup_png fig_s with
      | Some e, _ | None, Some e =>
          (extended w [Savefig time_png fig_t 120], Raise e)
      | None, None =>
          match layout_error w fig_p, save_error w throughput_png fig_p with
          | Some e, _ | None, Some e =>
              (extended w [Savefig time_png fig_t 120;
                           Savefig speedup_png fig_s 120], Raise e)
          | None, None =>
              (extended w [Savefig time_png fig_t 120;
                           Savefig speedup_png fig_s 120;
                           Savefig throughput_png fig_p 120;
                           Print "OK! Arquivos salvos:";
                           Print (" - " ++ Path.str time_png)%string;
                           Print (" - " ++ Path.str speedup_png)%string;
                           Print (" - " ++ Path.str throughput_png)%string],
               Ok tt)
          end
      end
  end.
Proof.
  intros Hread base time_png speedup_png throughput_png Ht Hs Hp.
  unfold main. unfold bindM at 1. rewrite Hread.
  fold base. fold time_png speedup_png throughput_png.
  unfold bindM at 1. rewrite (Ht w). unfold outcome.
  destruct (layout_error w fig_t) as [e|]; [reflexivity|].
  destruct (save_error w time_png fig_t) as [e|]; [reflexivity|].
  unfold bindM at 1. rewrite (Hs _). unfold outcome, after.
  cbn [layout_error save_error extended].
  destruct (layout_error w fig_s) as [e|]; [reflexivity|].
  destruct (save_error w speedup_png fig_s) as [e|]; [reflexivity|].
  unfold bindM at 1. rewrite (Hp _). unfold outcome, after.
  cbn [layout_error save_error extended]. rewrite !extended_app. cbn [app].
  destruct (layout_error w fig_p) as [e|]; [reflexivity|].
  destruct (save_error w throughput_png fig_p) as [e|]; [reflexivity|].
  unfold bindM, print, emit. fold (extended w).
  unfold extended. cbn [tables layout_error save_error trace].
  now rewrite <- !app_assoc.
Qed.

Lemma three_figures (rows : list Row) (time_png speedup_png throughput_png : Path.t)
    (title0 : option string) :
  exists fig_t fig_s fig_p,
    draws (make_time_plot rows time_png) time_png fig_t
    /\ draws (make_speedup_plot rows speedup_png) speedup_png fig_s
    /\ draws (make_throughput_plot rows throughput_png title0) throughput_png fig_p.
Proof.
  destruct (pivot_by_file_inv rows) as (idx & Hidx & _).
  destruct (time_plot_blank rows time_png idx Hidx) as (f1 & ? & ? & H1 & _).
  destruct (speedup_plot_blank rows speedup_png idx Hidx) as (f2 & ? & H2 & _).
  destruct (throughput_plot_blank rows throughput_png title0 idx Hidx)
    as (f3 & ? & ? & H3 & _).
  exists f1, f2, f3. split; [|split].
  - now apply time_plot_draws.
  - now apply speedup_plot_draws.
  - now apply throughput_plot_draws.
Qed.



(** ** The charts of sample tables *)

(** The table of two rows for data.bin and one SHA-256 row for lonely.bin:
    the time chart has the one category data.bin with bars 100.0 and 20.0,
    the speedup chart one bar 5.0, the throughput chart bars 10.0 and 50.0;
    lonely.bin is in no chart. *)
Example sample_charts :
  let w := fst (main default_args sample_world) in
  map xticklabels (saved w) = [["data.bin"]; ["data.bin"]; ["data.bin"]]
  /\ map all_heights (saved w) =
     [[[Py.literal "100.0"]; [Py.literal "20.0"]];
      [[Py.literal "5.0"]];
      [[Py.literal "10.0"]; [Py.literal "50.0"]]]
  /\ map (fun fig => map text_s (texts fig)) (saved w) =
     [["100.00"; "20.00"]; ["5.00"]; ["10.00"; "50.00"]].
Proof. vm_compute. repeat split. Qed.

(** Runs that the drawing library cuts short: with the output directory
    missing the entry point raises before anything is saved; with a title
    that cannot be typeset it raises on the throughput chart, once the time
    chart and the speedup chart are saved, and prints nothing. *)
Example interrupted_runs :
  (let (w, r) := main default_args missing_directory_world in
   (map event_text (trace w), r))
  = ([], Raise OSError)
  /\ (let (w, r) :=
        main {| arg_csv := arg_csv default_args;
                arg_outdir := arg_outdir default_args;
                arg_title := "$\bad$" |} bad_title_world in
      (map event_text (trace w), r))
     = (["snapshot_bench_time.png"; "snapshot_bench_speedup.png"],
        Raise ValueError).
Proof. vm_compute. split; reflexivity. Qed.

(** A later record of the same file and algorithm replaces the earlier one,
    and a record of another algorithm leaves no trace. *)
Example duplicate_records :
  let r1 := sample_record "PH128" "a.bin" "1.0" in
  let r2 := sample_record "MD5" "a.bin" "2.0" in
  let r3 := sample_record "PH128" "a.bin" "3.0" in
  pivot_by_file [r1; r2; r3] = Ok [("a.bin", [("PH128", r3)])].
Proof. reflexivity. Qed.

(** Preferred names come first, in the order of the preferred list, then
    the others in lexicographic order; a zero throughput keeps a file out
    of the speedup chart only, and TOTAL is left out of the time chart only. *)
Example sample_order :
  let both f t := [sample_record "SHA-256" f t; sample_record "PH128" f "2.0"] in
  let rows := both "zeta" "1.0" ++ both "TOTAL" "1.0" ++ both "alpha" "0"
              ++ both "txids.data" "1.0" ++ [sample_record "PH128" "beta" "1.0"] in
  let w := blank_world in
  let out := {| Path.anchor := ""; Path.parts := ["out.png"] |} in
  map xticklabels (saved (fst (make_time_plot rows out w))) =
    [["zeta"; "alpha"; "txids.data"]]
  /\ map xticklabels (saved (fst (make_speedup_plot rows out w))) =
     [["zeta"; "TOTAL"; "txids.data"]]
  /\ map xticklabels (saved (fst (make_throughput_plot rows out None w))) =
     [["txids.data"; "TOTAL"; "alpha"; "zeta"]].
Proof. vm_compute. repeat split. Qed.

(** * Further properties of the script *)

(** ** The pivot index, by induction on the records consumed *)

Lemma pivot_by_file_snoc (rows : list Row) (r : Row) (idx' : PivotIndex) :
  pivot_by_file (rows ++ [r]) = Ok idx' ->
  exists idx,
    pivot_by_file rows = Ok idx
    /\ idx' = (if recognized (algo r)
               then Dict.set idx (file r)
                      (Dict.set (Dict.get_or idx (file r) Dict.empty) (algo r) r)
               else idx).
Proof.
  unfold pivot_by_file. rewrite for_each_app.
  destruct (for_each pivot_body rows Dict.empty) as [idx|e]; [|discriminate].
  cbn [bind for_each]. rewrite pivot_body_eq. cbn [bind].
  intros [= <-]. now exists idx.
Qed.

Lemma pivot_ind (P : list Row -> PivotIndex -> Prop) :
  P [] Dict.empty ->
  (forall rows idx r,
     pivot_by_file rows = Ok idx -> P rows idx ->
     P (rows ++ [r])
       (if recognized (algo r)
        then Dict.set idx (file r)
               (Dict.set (Dict.get_or idx (file r) Dict.empty) (algo r) r)
        else idx)) ->
  forall rows idx, pivot_by_file rows = Ok idx -> P rows idx.
Proof.
  intros Hnil Hstep rows.
  induction rows as [|r rows IH] using rev_ind; intros idx' Hrun.
  - injection Hrun as <-. exact Hnil.
  - destruct (pivot_by_file_snoc rows r idx' Hrun) as (idx & Hidx & ->).
    apply Hstep; [exact Hidx | now apply IH].
Qed.

Lemma first_seen_In (l : list string) (x : string) : In x (first_seen l) <-> In x l.
Proof.
  induction l as [|y l IH]; simpl; [tauto|].
  rewrite filter_In, IH. destruct (String.eqb_spec x y) as [->|Hne].
  - split; auto.
  - split; [tauto|]. intros [H|H]; [congruence|]. right. now split.
Qed.

Lemma first_seen_snoc (l : list string) (x : string) :
  first_seen (l ++ [x]) = if in_list x l then first_seen l else first_seen l ++ [x].
Proof.
  induction l as [|y l IH]; [reflexivity|].
  cbn [app first_seen]. rewrite IH. unfold in_list; cbn [existsb].
  fold (in_list x l).
  destruct (String.eqb_spec x y) as [->|Hne]; cbn [orb].
  - destruct (in_list y l); [reflexivity|].
    rewrite filter_app. cbn [filter]. rewrite String.eqb_refl. cbn [negb].
    now rewrite app_nil_r.
  - destruct (in_list x l); [reflexivity|].
    rewrite filter_app. cbn [filter].
    now rewrite (proj2 (String.eqb_neq x y) Hne).
Qed.

(** X1: the files of the pivot index are the files of the records of a
    recognized algorithm, each once, in the order in which they first appear
    in the input. *)
Theorem pivot_keys_first_seen (rows : list Row) :
  exists idx,
    pivot_by_file rows = Ok idx
    /\ Dict.keys idx =
       first_seen (map file (filter (fun r => recognized (algo r)) rows)).
Proof.
  destruct (pivot_by_file_inv rows) as (idx & Hrun & _).
  exists idx. split; [exact Hrun|]. revert rows idx Hrun.
  apply pivot_ind; [reflexivity|].
  intros rows idx r _ IH. rewrite filter_app, map_app. cbn [filter].
  destruct (recognized (algo r)); cbn [map]; [|now rewrite app_nil_r].
  rewrite keys_set, first_seen_snoc, <- IH.
  assert (E : Dict.mem idx (file r)
              = in_list (file r)
                  (map file (filter (fun r0 => recognized (algo r0)) rows))).
  { apply eq_true_iff_eq. now rewrite mem_keys, in_list_In, IH, first_seen_In. }
  now rewrite E.
Qed.

Lemma set_not_empty {V : Type} (d : Dict.t V) (k : string) (v : V) :
  Dict.set d k v <> [].
Proof.
  destruct d as [|[k' v'] d]; simpl; [discriminate|].
  destruct (String.eqb k' k); discriminate.
Qed.

Lemma pivot_inner_not_empty (rows : list Row) (idx : PivotIndex) :
  pivot_by_file rows = Ok idx ->
  forall f algos, Dict.get idx f = Some algos -> algos <> [].
Proof.
  revert rows idx.
  apply (pivot_ind (fun _ idx =>
                      forall f algos, Dict.get idx f = Some algos -> algos <> []));
    [discriminate|].
  intros rows idx r _ IH f algos.
  destruct (recognized (algo r)); [|apply IH].
  destruct (String.eqb_spec (file r) f) as [<-|Hne].
  - rewrite get_set_same. intros [= <-]. apply set_not_empty.
  - rewrite get_set_other by exact Hne. apply IH.
Qed.

(** X2: every file of the pivot index has one record or two: no file is
    kept with an empty dict, and none with more than the two algorithms. *)
Theorem pivot_one_or_two_records (rows : list Row) :
  exists idx,
    pivot_by_file rows = Ok idx
    /\ forall f algos,
         Dict.get idx f = Some algos ->
         List.length algos = 1%nat \/ List.length algos = 2%nat.
Proof.
  destruct (pivot_by_file_inv rows) as (idx & Hrun & _ & Hwf & Hlk).
  exists idx. split; [exact Hrun|]. intros f algos Hget.
  pose proof (pivot_inner_not_empty rows idx Hrun f algos Hget) as Hne.
  assert (Hincl : incl (Dict.keys algos) ["SHA-256"; "PH128"]).
  { intros a Ha. apply mem_keys in Ha. unfold Dict.mem in Ha.
    destruct (Dict.get algos a) as [r|] eqn:Hr; [|discriminate].
    specialize (Hlk f a). unfold lookup in Hlk. rewrite Hget, Hr in Hlk.
    destruct (recognized a) eqn:Hrec; [|discriminate].
    destruct (recognized_cases a Hrec) as [-> | ->]; simpl; auto. }
  pose proof (NoDup_incl_length (Hwf f algos Hget) Hincl) as Hlen.
  unfold Dict.keys in Hlen. rewrite length_map in Hlen. cbn in Hlen.
  destruct algos as [|x [|y [|z algos]]]; cbn in *; try lia; congruence.
Qed.

Lemma find_app {A : Type} (p : A -> bool) (l1 l2 : list A) :
  find p (l1 ++ l2) = match find p l1 with Some x => Some x | None => find p l2 end.
Proof.
  induction l1 as [|x l1 IH]; simpl; [reflexivity|]. now destruct (p x).
Qed.

(** X3: building the index from two record lists one after the other gives,
    for every file and algorithm, the record of the second list when it has
    one and the record of the first list otherwise. *)
Theorem pivot_of_concatenation (rows1 rows2 : list Row) :
  exists idx1 idx2 idx,
    pivot_by_file rows1 = Ok idx1
    /\ pivot_by_file rows2 = Ok idx2
    /\ pivot_by_file (rows1 ++ rows2) = Ok idx
    /\ forall f a,
         lookup idx f a =
         match lookup idx2 f a with
         | Some r => Some r
         | None => lookup idx1 f a
         end.
Proof.
  destruct (pivot_by_file_inv rows1) as (idx1 & H1 & _ & _ & L1).
  destruct (pivot_by_file_inv rows2) as (idx2 & H2 & _ & _ & L2).
  destruct (pivot_by_file_inv (rows1 ++ rows2)) as (idx & H & _ & _ & L).
  exists idx1, idx2, idx. repeat split; try assumption.
  intros f a. rewrite L, L1, L2.
  destruct (recognized a); [|reflexivity].
  unfold last_record. now rewrite rev_app_distr, find_app.
Qed.

(** ** The rows of the table: header, lines and cells *)

Lemma fold_left_map {A B S : Type} (h : S -> B -> S) (f : A -> B) (l : list A) (s0 : S) :
  fold_left (fun s a => h s (f a)) l s0 = fold_left h (map f l) s0.
Proof. revert s0; induction l as [|a l IH]; intros s0; simpl; [reflexivity | apply IH]. Qed.

Lemma pad_split (fieldnames row : list string) :
  map (fun kv => (fst kv, Some (snd kv))) (combine fieldnames row)
  ++ map (fun k => (k, @None string)) (skipn (List.length row) fieldnames)
  = pad fieldnames row.
Proof.
  revert row; induction fieldnames as [|k ks IH]; intros row.
  - now rewrite skipn_nil.
  - destruct row as [|v vs]; simpl.
    + f_equal. specialize (IH []). rewrite combine_nil in IH. exact IH.
    + f_equal. apply IH.
Qed.

Lemma keys_pad (fieldnames row : list string) :
  Dict.keys (pad fieldnames row) = fieldnames.
Proof.
  revert row; induction fieldnames as [|k ks IH]; intros row; [reflexivity|].
  destruct row; simpl; now rewrite IH.
Qed.

Lemma get_fold_set {V : Type} (l : list (string * V)) (d0 : Dict.t V) (k : string) :
  NoDup (Dict.keys l) ->
  Dict.get (fold_left (fun d p => Dict.set d (fst p) (snd p)) l d0) k =
  match Dict.get l k with Some v => Some v | None => Dict.get d0 k end.
Proof.
  revert d0; induction l as [|[k0 v0] l IH]; intros d0 Hnd; [reflexivity|].
  inversion Hnd as [|? ? Hnotin Hnd']; subst. cbn [fold_left fst snd Dict.get].
  rewrite IH by exact Hnd'.
  destruct (String.eqb_spec k0 k) as [->|Hne].
  - destruct (Dict.get l k) as [v|] eqn:Hg.
    + exfalso. apply Hnotin. now apply get_keys with v.
    + apply get_set_same.
  - now rewrite get_set_other by exact Hne.
Qed.

Lemma dict_row_get (fieldnames row : list string) (k : string) :
  NoDup fieldnames ->
  Dict.get (dict_row fieldnames row) k = Dict.get (pad fieldnames row) k.
Proof.
  intros Hnd. unfold dict_row.
  rewrite (fold_left_map (fun d p => Dict.set d (fst p) (snd p))
             (fun k0 : string => (k0, @None string))).
  rewrite (fold_left_map (fun d p => Dict.set d (fst p) (snd p))
             (fun kv : string * string => (fst kv, Some (snd kv)))).
  rewrite <- fold_left_app, pad_split, get_fold_set.
  - now destruct (Dict.get (pad fieldnames row) k).
  - now rewrite keys_pad.
Qed.

Lemma get_pad_nth (fieldnames row : list string) (i : nat) (k : string) :
  NoDup fieldnames -> nth_error fieldnames i = Some k ->
  Dict.get (pad fieldnames row) k = Some (nth_error row i).
Proof.
  revert row i; induction fieldnames as [|k0 ks IH]; intros row i Hnd Hi.
  - destruct i; discriminate.
  - inversion Hnd as [|? ? Hnotin Hnd']; subst.
    destruct i as [|i]; cbn in Hi.
    + injection Hi as ->. destruct row; cbn; now rewrite String.eqb_refl.
    + assert (Hne : k0 <> k).
      { intros ->. apply Hnotin. eapply nth_error_In; eassumption. }
      apply String.eqb_neq in Hne.
      destruct row as [|v vs]; cbn; rewrite Hne.
      * rewrite (IH [] i Hnd' Hi). now destruct i.
      * apply (IH vs i Hnd' Hi).
Qed.

Lemma get_pad_none (fieldnames row : list string) (k : string) :
  ~ In k fieldnames -> Dict.get (pad fieldnames row) k = None.
Proof.
  intros Hnotin. destruct (Dict.get (pad fieldnames row) k) as [v|] eqn:Hg;
    [|reflexivity].
  exfalso. apply Hnotin. apply get_keys in Hg. now rewrite keys_pad in Hg.
Qed.

Lemma get_pad_cell (fieldnames row : list string) (k v : string) :
  Dict.get (pad fieldnames row) k = Some (Some v) ->
  exists i, nth_error fieldnames i = Some k /\ nth_error row i = Some v.
Proof.
  revert row; induction fieldnames as [|k0 ks IH]; intros row; [discriminate|].
  destruct row as [|v0 vs]; cbn; destruct (String.eqb_spec k0 k) as [->|Hne].
  - discriminate.
  - intros H. destruct (IH [] H) as (i & _ & Hi). now destruct i.
  - intros [= ->]. now exists 0%nat.
  - intros H. destruct (IH vs H) as (i & Hi1 & Hi2). now exists (S i).
Qed.

Lemma read_row_result (r : CsvRow) (rec : Row) :
  read_row r = Ok rec ->
  exists a f, Dict.get r "algo" = Some (Some a) /\ Dict.get r "file" = Some (Some f).
Proof.
  unfold read_row, Dict.getitem.
  destruct (Dict.get r "algo") as [[a|]|]; cbn; try discriminate.
  destruct (Dict.get r "file") as [[f|]|]; cbn; try discriminate.
  intros _. now exists a, f.
Qed.

(** X4: under a header without a repeated name, a line is read into a
    record exactly when the header names both the algo and the file column
    and the line is long enough to have a cell in each; what the other cells
    hold, or whether they exist, plays no part. *)
Theorem read_row_succeeds_iff (header row : list string) :
  NoDup header ->
  (exists rec, read_row (dict_row header row) = Ok rec) <->
  (exists i j,
     nth_error header i = Some "algo" /\ nth_error header j = Some "file"
     /\ (i < List.length row)%nat /\ (j < List.length row)%nat).
Proof.
  intros Hnd. split.
  - intros (rec & Hrun). apply read_row_result in Hrun.
    destruct Hrun as (a & f & Ha & Hf).
    rewrite (dict_row_get header row _ Hnd) in Ha.
    rewrite (dict_row_get header row _ Hnd) in Hf.
    apply get_pad_cell in Ha. destruct Ha as (i & Hi & Hri).
    apply get_pad_cell in Hf. destruct Hf as (j & Hj & Hrj).
    exists i, j. repeat split; try assumption; apply nth_error_Some; congruence.
  - intros (i & j & Hi & Hj & Hli & Hlj).
    destruct (nth_error row i) as [a|] eqn:Ha;
      [|apply nth_error_None in Ha; lia].
    destruct (nth_error row j) as [f|] eqn:Hf;
      [|apply nth_error_None in Hf; lia].
    eexists. apply (read_row_ok _ a f); rewrite (dict_row_get header row _ Hnd).
    + now rewrite (get_pad_nth header row i "algo" Hnd Hi), Ha.
    + now rewrite (get_pad_nth header row j "file" Hnd Hj), Hf.
Qed.

Lemma sample_header_nodup : NoDup sample_header.
Proof. unfold sample_header. repeat constructor; simpl; intuition discriminate. Qed.

Lemma read_row_succeeds_iff_witness :
  exists rec, read_row (dict_row sample_header ["PH128"; "a.bin"]) = Ok rec.
Proof.
  apply (proj2 (read_row_succeeds_iff sample_header ["PH128"; "a.bin"]
                  sample_header_nodup)).
  exists 0%nat, 1%nat. repeat split; simpl; lia.
Defined.

(** X5: under a header without a repeated name, the exception a line raises
    is decided by its two text cells, the algo cell first: KeyError when the
    header lacks the column, AttributeError when the header has it and the
    line is too short to reach it. *)
Theorem read_row_errors (header row : list string) :
  NoDup header ->
  (~ In "algo" header -> read_row (dict_row header row) = Raise (KeyError "algo"))
  /\ (forall i,
        nth_error header i = Some "algo" -> (List.length row <= i)%nat ->
        read_row (dict_row header row) = Raise AttributeError)
  /\ (forall i,
        nth_error header i = Some "algo" -> (i < List.length row)%nat ->
        ~ In "file" header ->
        read_row (dict_row header row) = Raise (KeyError "file"))
  /\ (forall i j,
        nth_error header i = Some "algo" -> (i < List.length row)%nat ->
        nth_error header j = Some "file" -> (List.length row <= j)%nat ->
        read_row (dict_row header row) = Raise AttributeError).
Proof.
  intros Hnd. unfold read_row, Dict.getitem.
  rewrite !(dict_row_get header row _ Hnd). repeat split.
  - intros Hno. now rewrite (get_pad_none header row _ Hno).
  - intros i Hi Hlen. rewrite (get_pad_nth header row i _ Hnd Hi).
    apply nth_error_None in Hlen. now rewrite Hlen.
  - intros i Hi Hlen Hno. rewrite (get_pad_nth header row i _ Hnd Hi).
    destruct (nth_error row i) eqn:Ha; [|apply nth_error_None in Ha; lia].
    cbn. now rewrite (get_pad_none header row _ Hno).
  - intros i j Hi Hlen Hj Hshort. rewrite (get_pad_nth header row i _ Hnd Hi).
    destruct (nth_error row i) eqn:Ha; [|apply nth_error_None in Ha; lia].
    cbn. rewrite (get_pad_nth header row j _ Hnd Hj).
    apply nth_error_None in Hshort. now rewrite Hshort.
Qed.

Lemma read_row_errors_witness :
  read_row (dict_row sample_header ["PH128"]) = Raise AttributeError.
Proof.
  destruct (read_row_errors sample_header ["PH128"] sample_header_nodup)
    as (_ & _ & _ & H).
  apply (H 0%nat 1%nat); [reflexivity | simpl; lia | reflexivity | simpl; lia].
Defined.

(** ** The row reader as a whole *)

Lemma comprehension_Ok {A B : Type} (f : A -> result B) (xs : list A) (ys : list B) :
  comprehension f xs = Ok ys -> Forall2 (fun x y => f x = Ok y) xs ys.
Proof.
  revert ys; induction xs as [|x xs IH]; intros ys; simpl.
  - intros [= <-]. constructor.
  - destruct (f x) as [y|e] eqn:Hx; [|discriminate]. cbn [bind].
    destruct (comprehension f xs) as [ys'|e]; [|discriminate]. cbn [bind].
    intros [= <-]. constructor; [exact Hx | now apply IH].
Qed.

Lemma comprehension_Raise {A B : Type} (f : A -> result B) (xs : list A) (e : exn) :
  comprehension f xs = Raise e ->
  exists pre x post,
    xs = pre ++ x :: post
    /\ Forall (fun x0 => exists y, f x0 = Ok y) pre
    /\ f x = Raise e.
Proof.
  induction xs as [|x xs IH]; simpl; [discriminate|].
  destruct (f x) as [y|e'] eqn:Hx; cbn [bind].
  - destruct (comprehension f xs) as [ys|e'']; cbn [bind]; [discriminate|].
    intros [= ->]. destruct (IH eq_refl) as (pre & x0 & post & -> & Hpre & Hx0).
    exists (x :: pre), x0, post. repeat split; try assumption.
    constructor; [now exists y | exact Hpre].
  - intros [= ->]. exists [], x, xs. repeat split; [constructor | exact Hx].
Qed.

Lemma read_rows_eq (csv_path : Path.t) (w : World) (header : list string)
    (data : list (list string)) :
  tables w csv_path = Some (header :: data) ->
  read_rows csv_path w =
  (w, comprehension read_row (map (dict_row header) (data_lines data))).
Proof.
  intros Htab. unfold read_rows, bindM, open_table, lift. now rewrite Htab.
Qed.

(** X6: when the table is read without an error, the world is left as it
    was and the records are those of the non-blank data lines, one per line
    and in the order of the lines. *)
Theorem read_rows_in_order (csv_path : Path.t) (w : World) (header : list string)
    (data : list (list string)) (recs : list Row) :
  tables w csv_path = Some (header :: data) ->
  snd (read_rows csv_path w) = Ok recs ->
  fst (read_rows csv_path w) = w
  /\ Forall2 (fun line rec => read_row (dict_row header line) = Ok rec)
             (data_lines data) recs.
Proof.
  intros Htab. rewrite (read_rows_eq _ _ _ _ Htab). cbn [fst snd].
  intros Hrun. split; [reflexivity|].
  apply comprehension_Ok in Hrun.
  remember (data_lines data) as ls eqn:E. clear E Htab.
  revert recs Hrun. induction ls as [|l ls IH]; intros recs Hrun;
    inversion Hrun; subst; constructor; auto.
Qed.

Lemma read_rows_in_order_witness :
  exists recs,
    snd (read_rows (arg_csv default_args) sample_world) = Ok recs
    /\ List.length recs = 3%nat.
Proof.
  eexists. split; [reflexivity|].
  destruct (read_rows_in_order (arg_csv default_args) sample_world sample_header
              (tl sample_lines) _ eq_refl eq_refl) as [_ H].
  apply Forall2_length in H. rewrite <- H. reflexivity.
Defined.

(** X7: when reading the table raises, the world is left as it was and the
    exception is the one of the first non-blank data line that cannot be
    read; every line before it could be read. *)
Theorem read_rows_first_error (csv_path : Path.t) (w : World) (header : list string)
    (data : list (list string)) (e : exn) :
  tables w csv_path = Some (header :: data) ->
  snd (read_rows csv_path w) = Raise e ->
  fst (read_rows csv_path w) = w
  /\ exists pre line post,
       data_lines data = pre ++ line :: post
       /\ Forall (fun l => exists rec, read_row (dict_row header l) = Ok rec) pre
       /\ read_row (dict_row header line) = Raise e.
Proof.
  intros Htab. rewrite (read_rows_eq _ _ _ _ Htab). cbn [fst snd].
  intros Hrun. split; [reflexivity|].
  apply comprehension_Raise in Hrun.
  destruct Hrun as (pre & r & post & Hsplit & Hpre & Hr).
  apply map_eq_app in Hsplit. destruct Hsplit as (lpre & lrest & Hl & <- & Hrest).
  apply map_eq_cons in Hrest.
  destruct Hrest as (line & lpost & -> & <- & <-).
  exists lpre, line, lpost. repeat split; try assumption.
  exact (proj1 (Forall_map (dict_row header)
                  (fun x0 => exists y, read_row x0 = Ok y) lpre) Hpre).
Qed.

Lemma read_rows_first_error_witness :
  fst (read_rows (arg_csv default_args) short_line_world) = short_line_world.
Proof.
  exact (proj1 (read_rows_first_error (arg_csv default_args) short_line_world
                  sample_header [["PH128"; "a.bin"]; ["PH128"]] AttributeError
                  eq_refl eq_refl)).
Defined.

(** ** The three charts of one record list *)

Lemma charts_of_index (rows : list Row) (time_png speedup_png throughput_png : Path.t)
    (title0 : option string) :
  exists idx fig_t fig_s fig_p sha_t ph_t bars_s sha_p ph_p,
    pivot_by_file rows = Ok idx
    /\ Dict.wf idx
    /\ draws (make_time_plot rows time_png) time_png fig_t
    /\ draws (make_speedup_plot rows speedup_png) speedup_png fig_s
    /\ draws (make_throughput_plot rows throughput_png title0) throughput_png fig_p
    /\ xticklabels fig_t = filter (in_time_chart idx) (Dict.keys idx)
    /\ xticklabels fig_s = filter (in_speedup_chart idx) (Dict.keys idx)
    /\ xticklabels fig_p = throughput_labels idx
    /\ (xticks fig_t = Py.range (List.length (xticklabels fig_t))
        /\ xticks fig_s = Py.range (List.length (xticklabels fig_s))
        /\ xticks fig_p = Py.range (List.length (xticklabels fig_p)))
    /\ (containers fig_t = [sha_t; ph_t] /\ containers fig_s = [bars_s]
        /\ containers fig_p = [sha_p; ph_p])
    /\ (List.length (heights sha_t) = List.length (xticklabels fig_t)
        /\ List.length (heights ph_t) = List.length (xticklabels fig_t)
        /\ List.length (heights bars_s) = List.length (xticklabels fig_s)
        /\ List.length (heights sha_p) = List.length (xticklabels fig_p)
        /\ List.length (heights ph_p) = List.length (xticklabels fig_p))
    /\ (texts fig_t = map bar_text (patches sha_t) ++ map bar_text (patches ph_t)
        /\ texts fig_s = map bar_text (patches bars_s)
        /\ texts fig_p = map bar_text (patches sha_p) ++ map bar_text (patches ph_p))
    /\ title fig_p = title_or title0 default_title.
Proof.
  destruct (pivot_by_file_inv rows) as (idx & Hidx & Hwf & _ & _).
  destruct (time_plot_blank rows time_png idx Hidx)
    as (ft & a1 & b1 & Hr1 & Hl1 & Hx1 & Hc1 & Ha1 & Hb1 & Ht1).
  destruct (speedup_plot_blank rows speedup_png idx Hidx)
    as (fs & c2 & Hr2 & Hl2 & Hx2 & Hc2 & Hh2 & Ht2).
  destruct (throughput_plot_blank rows throughput_png title0 idx Hidx)
    as (fp & a3 & b3 & Hr3 & Hl3 & Hx3 & Hc3 & Ha3 & Hb3 & Ht3 & Htitle).
  exists idx, ft, fs, fp, a1, b1, c2, a3, b3.
  split; [exact Hidx|]. split; [exact Hwf|].
  split; [now apply time_plot_draws|].
  split; [now apply speedup_plot_draws|].
  split; [now apply throughput_plot_draws|].
  split.
  { rewrite Hl1, (pairs_names idx _ Hwf). apply filter_ext. intros f.
    unfold in_time_chart. rewrite qualifies_lookup. cbn [pair_name fst].
    destruct (lookup idx f "SHA-256"), (lookup idx f "PH128");
      now rewrite ?andb_true_r, ?andb_false_r. }
  split.
  { rewrite Hl2, (pairs_names idx _ Hwf). apply filter_ext. intros f.
    unfold in_speedup_chart.
    now destruct (lookup idx f "SHA-256"), (lookup idx f "PH128"). }
  split; [exact Hl3|].
  split.
  { rewrite Hx1, Hx2, Hx3, Hl1, Hl2, Hl3, !length_map. now repeat split. }
  split; [now repeat split|].
  split.
  { rewrite Ha1, Hb1, Hh2, Ha3, Hb3, Hl1, Hl2, Hl3, !length_map. now repeat split. }
  split; [now repeat split | exact Htitle].
Qed.

Lemma throughput_labels_In (idx : PivotIndex) (f : string) :
  In f (throughput_labels idx) <-> qualifies idx f = true.
Proof.
  split; [apply throughput_labels_qualify|].
  intros Hq. unfold throughput_labels. apply in_app_iff.
  destruct (in_list f preferred) eqn:Hp.
  - left. apply filter_In. split; [now apply in_list_In|].
    now rewrite in_all_labels.
  - right.
    apply (Permutation_in _ (proj1 (sorted_spec _))).
    apply filter_In. split; [|now rewrite Hp].
    apply filter_In. split; [now apply qualifies_key | exact Hq].
Qed.

Lemma speedup_qualifies (idx : PivotIndex) (f : string) :
  in_speedup_chart idx f = true -> qualifies idx f = true.
Proof.
  unfold in_speedup_chart. rewrite qualifies_lookup.
  now destruct (lookup idx f "SHA-256"), (lookup idx f "PH128").
Qed.

(** X8: the charts that the three renderers build for one record list (and
    save, unless the drawing library raises) agree on their categories: a
    file is a category of the time chart exactly when it is a category of
    the throughput chart other than TOTAL, and every category of the speedup
    chart is a category of the throughput chart. *)
Theorem charts_agree (rows : list Row) (time_png speedup_png throughput_png : Path.t)
    (title0 : option string) :
  exists fig_t fig_s fig_p,
    draws (make_time_plot rows time_png) time_png fig_t
    /\ draws (make_speedup_plot rows speedup_png) speedup_png fig_s
    /\ draws (make_throughput_plot rows throughput_png title0) throughput_png fig_p
    /\ (forall f, In f (xticklabels fig_t) <->
                  In f (xticklabels fig_p) /\ f <> "TOTAL")
    /\ (forall f, In f (xticklabels fig_s) -> In f (xticklabels fig_p)).
Proof.
  destruct (charts_of_index rows time_png speedup_png throughput_png title0)
    as (idx & ft & fs & fp & ? & ? & ? & ? & ? & _ & _ & Ht & Hs & Hp
        & Hlt & Hls & Hlp & _).
  exists ft, fs, fp.
  split; [exact Ht|]. split; [exact Hs|]. split; [exact Hp|]. split.
  - intros f. rewrite Hlt, Hlp, filter_In, throughput_labels_In.
    unfold in_time_chart. rewrite andb_true_iff, negb_true_iff, String.eqb_neq.
    split; [tauto|]. intros [Hq Hne]. split; [now apply qualifies_key | tauto].
  - intros f Hin. rewrite Hlp. apply throughput_labels_In.
    rewrite Hls in Hin. apply filter_In in Hin. now apply speedup_qualifies.
Qed.

Lemma preferred_nodup : NoDup preferred.
Proof. unfold preferred. repeat constructor; simpl; intuition discriminate. Qed.

Lemma throughput_labels_nodup (idx : PivotIndex) :
  Dict.wf idx -> NoDup (throughput_labels idx).
Proof.
  intros Hwf. unfold throughput_labels.
  set (others := filter (fun f => negb (in_list f preferred))
                        (filter (qualifies idx) (Dict.keys idx))).
  destruct (sorted_spec others) as [Hperm _].
  apply NoDup_app.
  - apply NoDup_filter, preferred_nodup.
  - apply (Permutation_NoDup Hperm). unfold others.
    apply NoDup_filter, NoDup_filter. exact Hwf.
  - intros f Hpre Hrest. apply filter_In in Hpre. destruct Hpre as [Hpre _].
    apply (Permutation_in _ (Permutation_sym Hperm)) in Hrest.
    apply filter_In in Hrest. destruct Hrest as [_ Hrest].
    apply in_list_In in Hpre. rewrite Hpre in Hrest. discriminate.
Qed.

(** X9: in the chart that each of the three renderers builds (and saves,
    unless the drawing library raises) no file is a category twice, however
    many records the input has for it. *)
Theorem chart_categories_nodup (rows : list Row)
    (time_png speedup_png throughput_png : Path.t) (title0 : option string) :
  exists fig_t fig_s fig_p,
    draws (make_time_plot rows time_png) time_png fig_t
    /\ draws (make_speedup_plot rows speedup_png) speedup_png fig_s
    /\ draws (make_throughput_plot rows throughput_png title0) throughput_png fig_p
    /\ NoDup (xticklabels fig_t)
    /\ NoDup (xticklabels fig_s)
    /\ NoDup (xticklabels fig_p).
Proof.
  destruct (charts_of_index rows time_png speedup_png throughput_png title0)
    as (idx & ft & fs & fp & ? & ? & ? & ? & ? & _ & Hwf & Ht & Hs & Hp
        & Hlt & Hls & Hlp & _).
  exists ft, fs, fp.
  split; [exact Ht|]. split; [exact Hs|]. split; [exact Hp|].
  rewrite Hlt, Hls, Hlp. split; [|split].
  - apply NoDup_filter. exact Hwf.
  - apply NoDup_filter. exact Hwf.
  - now apply throughput_labels_nodup.
Qed.

Lemma bar_texts_of (c : BarContainer) :
  Forall (fun t => text_s t = Py.format_2f (text_y t)) (map bar_text (patches c)).
Proof. apply Forall_map, Forall_forall. intros b _. reflexivity. Qed.

(** X10: in the charts that the speedup and the throughput renderer build
    (and save, unless the drawing library raises) every bar is annotated, series by series and left to right, at its own height and
    with that height formatted by ".2f". *)
Theorem bars_annotated (rows : list Row) (speedup_png throughput_png : Path.t)
    (title0 : option string) :
  exists fig_s fig_p,
    draws (make_speedup_plot rows speedup_png) speedup_png fig_s
    /\ draws (make_throughput_plot rows throughput_png title0) throughput_png fig_p
    /\ map text_y (texts fig_s) = List.concat (all_heights fig_s)
    /\ map text_y (texts fig_p) = List.concat (all_heights fig_p)
    /\ Forall (fun t => text_s t = Py.format_2f (text_y t))
              (texts fig_s ++ texts fig_p).
Proof.
  destruct (charts_of_index rows speedup_png speedup_png throughput_png title0)
    as (idx & ft & fs & fp & a1 & b1 & c2 & a3 & b3 & _ & _ & _ & Hs & Hp
        & _ & _ & _ & _ & (_ & Hc2 & Hc3) & _ & (_ & Ht2 & Ht3) & _).
  exists fs, fp.
  split; [exact Hs|]. split; [exact Hp|].
  unfold all_heights. rewrite Ht2, Ht3, Hc2, Hc3. cbn [map List.concat].
  rewrite map_app, !bar_text_y, !app_nil_r.
  repeat split. rewrite !Forall_app. repeat split; apply bar_texts_of.
Qed.

(** X11: in the chart that each of the three renderers builds (and saves,
    unless the drawing library raises) the ticks are 0, 1, ..., one per
    category, and every bar series has exactly one bar per category, so that
    neither the bars nor the tick labels are ever rejected for a length that
    does not match. *)
Theorem ticks_and_bars_match (rows : list Row)
    (time_png speedup_png throughput_png : Path.t) (title0 : option string) :
  exists fig_t fig_s fig_p,
    draws (make_time_plot rows time_png) time_png fig_t
    /\ draws (make_speedup_plot rows speedup_png) speedup_png fig_s
    /\ draws (make_throughput_plot rows throughput_png title0) throughput_png fig_p
    /\ Forall (fun fig =>
                 xticks fig = Py.range (List.length (xticklabels fig))
                 /\ Forall (fun c => List.length (heights c)
                                     = List.length (xticklabels fig))
                           (containers fig))
              [fig_t; fig_s; fig_p].
Proof.
  destruct (charts_of_index rows time_png speedup_png throughput_png title0)
    as (idx & ft & fs & fp & a1 & b1 & c2 & a3 & b3 & _ & _ & Ht & Hs & Hp
        & _ & _ & _ & (Hx1 & Hx2 & Hx3) & (Hc1 & Hc2 & Hc3)
        & (Ha1 & Hb1 & Hh2 & Ha3 & Hb3) & _).
  exists ft, fs, fp.
  split; [exact Ht|]. split; [exact Hs|]. split; [exact Hp|].
  constructor;
    [split; [exact Hx1 | rewrite Hc1; repeat constructor; assumption]|].
  constructor;
    [split; [exact Hx2 | rewrite Hc2; repeat constructor; assumption]|].
  constructor;
    [split; [exact Hx3 | rewrite Hc3; repeat constructor; assumption]|].
  constructor.
Qed.

(** X12: the chart that the throughput renderer builds carries the title it
    is given, except that an empty title, like no title, gives the default
    title; the chart is saved unless the drawing library raises on it, as it
    does on a title it cannot typeset. *)
Theorem throughput_chart_title (rows : list Row) (out_png : Path.t)
    (title0 : option string) :
  exists fig,
    draws (make_throughput_plot rows out_png title0) out_png fig
    /\ title fig =
       match title0 with
       | Some s => if String.eqb s "" then default_title else s
       | None => default_title
       end.
Proof.
  destruct (charts_of_index rows out_png out_png out_png title0)
    as (idx & ft & fs & fp & a1 & b1 & c2 & a3 & b3 & _ & _ & _ & _ & Hp
        & _ & _ & _ & _ & _ & _ & _ & Htitle).
  exists fp. split; [exact Hp | exact Htitle].
Qed.

(** X13: [_bar_labels] only adds texts: it leaves the grid, the bars, the
    title, the axis labels, the ticks and the legend of the axes as they
    are, keeps the texts already there, and adds one text per bar, in the
    order of the bars, at the height of the bar and reading that height to
    two decimals. *)
Theorem bar_labels_only_add_texts (ax : Axes) (bars : BarContainer) :
  let ax' := _bar_labels ax bars in
  (grid_y ax', containers ax', title ax', xlabel ax', ylabel ax',
   xticks ax', xticklabels ax', has_legend ax')
  = (grid_y ax, containers ax, title ax, xlabel ax, ylabel ax,
     xticks ax, xticklabels ax, has_legend ax)
  /\ exists added,
       texts ax' = texts ax ++ added
       /\ map text_y added = heights bars
       /\ map text_s added = map Py.format_2f (heights bars).
Proof.
  cbn zeta. rewrite bar_labels_eq. cbn. split; [reflexivity|].
  exists (map bar_text (patches bars)).
  split; [reflexivity|]. split; [apply bar_text_y | apply bar_text_s].
Qed.

(** ** The entry point, whatever the table *)

Lemma read_rows_world (csv_path : Path.t) (w : World) :
  read_rows csv_path w = (w, snd (read_rows csv_path w)).
Proof.
  unfold read_rows, bindM, open_table, lift.
  now destruct (tables w csv_path).
Qed.

Lemma main_read_raises (args : Args) (w : World) (e : exn) :
  snd (read_rows (arg_csv args) w) = Raise e -> main args w = (w, Raise e).
Proof.
  intros H. pose proof (read_rows_world (arg_csv args) w) as Hread.
  rewrite H in Hread. unfold main. unfold bindM at 1. now rewrite Hread.
Qed.


Lemma string_app_inv_head (a b c : string) :
  (a ++ b)%string = (a ++ c)%string -> b = c.
Proof. induction a as [|x a IH]; simpl; [auto | intros [= H]; auto]. Qed.

Lemma concat_snoc (sep : string) (l : list string) :
  exists pre, forall a, String.concat sep (l ++ [a]) = (pre ++ a)%string.
Proof.
  induction l as [|x l IH].
  - exists ""%string. reflexivity.
  - destruct IH as (pre & Hpre). exists (x ++ sep ++ pre)%string. intros a.
    cbn [app String.concat]. destruct (l ++ [a]) as [|y t] eqn:E.
    + destruct l; discriminate.
    + rewrite <- E, Hpre. now rewrite !string_app_assoc.
Qed.

Lemma str_div (p : Path.t) :
  exists pre, forall a, Path.str (Path.div p a) = (pre ++ a)%string.
Proof.
  destruct (concat_snoc "/" (Path.parts p)) as (pre & Hpre).
  exists (Path.anchor p ++ pre)%string. intros a.
  unfold Path.str, Path.div. cbn [Path.parts Path.anchor].
  destruct (Path.parts p ++ [a]) as [|y t] eqn:E.
  - destruct (Path.parts p); discriminate.
  - rewrite <- E, Hpre. now rewrite string_app_assoc.
Qed.

Lemma saved_paths_extended (w : World) (events : list Event) :
  saved_paths (extended w events) =
  saved_paths w
  ++ flat_map (fun e => match e with Savefig p _ _ => [p] | Print _ => [] end)
              events.
Proof. unfold saved_paths, extended. cbn [trace]. apply flat_map_app. Qed.

(** X15: the three images never overwrite one another.  The paths under
    which a run of the entry point saves figures are, in order, the first
    none, one, two or three of three paths (all three when the run returns
    normally) that lie directly in the output directory and are pairwise
    different as texts. *)
Theorem outputs_do_not_collide (args : Args) (w : World) :
  exists p1 p2 p3 n,
    saved_paths (fst (main args w)) = saved_paths w ++ firstn n [p1; p2; p3]
    /\ (snd (main args w) = Ok tt -> n = 3%nat)
    /\ NoDup (map Path.str [p1; p2; p3])
    /\ Forall (directly_in (arg_outdir args)) [p1; p2; p3].
Proof.
  exists (Path.div (arg_outdir args) (Path.stem (arg_csv args) ++ "_time.png")%string),
         (Path.div (arg_outdir args) (Path.stem (arg_csv args) ++ "_speedup.png")%string),
         (Path.div (arg_outdir args)
            (Path.stem (arg_csv args) ++ "_throughput.png")%string).
  assert (Hrun : exists n,
             saved_paths (fst (main args w)) =
               saved_paths w
               ++ firstn n
                    [Path.div (arg_outdir args)
                       (Path.stem (arg_csv args) ++ "_time.png")%string;
                     Path.div (arg_outdir args)
                       (Path.stem (arg_csv args) ++ "_speedup.png")%string;
                     Path.div (arg_outdir args)
                       (Path.stem (arg_csv args) ++ "_throughput.png")%string]
             /\ (snd (main args w) = Ok tt -> n = 3%nat)).
  { pose proof (read_rows_world (arg_csv args) w) as Hread.
    destruct (snd (read_rows (arg_csv args) w)) as [rows|e] eqn:Hsnd.
    - destruct (three_figures rows
                  (Path.div (arg_outdir args)
                     (Path.stem (arg_csv args) ++ "_time.png")%string)
                  (Path.div (arg_outdir args)
                     (Path.stem (arg_csv args) ++ "_speedup.png")%string)
                  (Path.div (arg_outdir args)
                     (Path.stem (arg_csv args) ++ "_throughput.png")%string)
                  (Some (arg_title args))) as (f1 & f2 & f3 & H1 & H2 & H3).
      rewrite (main_outcome args w rows f1 f2 f3 Hread H1 H2 H3).
      destruct (layout_error w f1);
        [exists 0%nat; cbn; now rewrite app_nil_r|].
      destruct (save_error w _ f1);
        [exists 0%nat; cbn; now rewrite app_nil_r|].
      destruct (layout_error w f2);
        [exists 1%nat; cbn [fst snd]; now rewrite saved_paths_extended|].
      destruct (save_error w _ f2);
        [exists 1%nat; cbn [fst snd]; now rewrite saved_paths_extended|].
      destruct (layout_error w f3);
        [exists 2%nat; cbn [fst snd]; now rewrite saved_paths_extended|].
      destruct (save_error w _ f3);
        [exists 2%nat; cbn [fst snd]; now rewrite saved_paths_extended|].
      exists 3%nat. cbn [fst snd]. now rewrite saved_paths_extended.
    - rewrite (main_read_raises args w e Hsnd). exists 0%nat.
      cbn. now rewrite app_nil_r. }
  destruct Hrun as (n & Hsaved & Hn). exists n.
  split; [exact Hsaved|]. split; [exact Hn|]. split.
  - destruct (str_div (arg_outdir args)) as (pre & Hpre).
    cbn [map]. rewrite !Hpre.
    repeat constructor; cbn [In]; intros H;
      repeat (destruct H as [H|H];
              [do 2 apply string_app_inv_head in H; discriminate|]);
      exact H.
  - repeat constructor; eexists; reflexivity.
Qed.

(** X16: the records of an algorithm other than the two recognized ones
    change no chart: each renderer does on a record list exactly what it
    does on the list without those records. *)
Theorem other_algorithms_change_no_chart (rows : list Row) (out_png : Path.t)
    (title0 : option string) :
  let kept := filter (fun r => recognized (algo r)) rows in
  make_time_plot kept out_png = make_time_plot rows out_png
  /\ make_speedup_plot kept out_png = make_speedup_plot rows out_png
  /\ make_throughput_plot kept out_png title0 =
     make_throughput_plot rows out_png title0.
Proof.
  cbn zeta.
  unfold make_time_plot, make_speedup_plot, make_throughput_plot, pivot_by_file.
  now rewrite pivot_skips_unrecognized.
Qed.

(** ** Stripped text fields *)

Section Stripped.
Variable sp : ascii -> bool.

Lemma rstrip_by_idem (s : string) :
  Py.rstrip_by sp (Py.rstrip_by sp s) = Py.rstrip_by sp s.
Proof.
  induction s as [|c s IH]; [reflexivity|]. cbn [Py.rstrip_by].
  destruct (Py.rstrip_by sp s) as [|c1 u] eqn:E.
  - destruct (sp c) eqn:Hc; [reflexivity|]. cbn [Py.rstrip_by]. now rewrite Hc.
  - cbn [Py.rstrip_by]. cbn [Py.rstrip_by] in IH. now rewrite IH.
Qed.

Lemma lstrip_by_head (s : string) :
  match Py.lstrip_by sp s with
  | EmptyString => True
  | String c _ => sp c = false
  end.
Proof.
  induction s as [|c s IH]; cbn [Py.lstrip_by]; [exact I|].
  destruct (sp c) eqn:Hc; [exact IH | exact Hc].
Qed.

Lemma lstrip_rstrip_head (t : string) :
  match t with EmptyString => True | String c _ => sp c = false end ->
  Py.lstrip_by sp (Py.rstrip_by sp t) = Py.rstrip_by sp t.
Proof.
  destruct t as [|c t]; [reflexivity|]. intros Hc. cbn [Py.rstrip_by].
  destruct (Py.rstrip_by sp t); rewrite ?Hc; cbn [Py.lstrip_by]; now rewrite Hc.
Qed.

End Stripped.

Lemma strip_idem (s : string) : Py.strip (Py.strip s) = Py.strip s.
Proof.
  unfold Py.strip.
  rewrite (lstrip_rstrip_head Py.isspace _ (lstrip_by_head Py.isspace s)).
  apply rstrip_by_idem.
Qed.

(** X17: the text fields of a record that was read carry no blank at either
    end: stripping the algorithm, the file or the checksum again changes
    nothing, so names that differ only in surrounding blanks are one name. *)
Theorem record_texts_stripped (r : CsvRow) (rec : Row) :
  read_row r = Ok rec ->
  Py.strip (algo rec) = algo rec
  /\ Py.strip (file rec) = file rec
  /\ Py.strip (sum_hex rec) = sum_hex rec.
Proof.
  intros Hrun. destruct (read_row_result r rec Hrun) as (a & f & Ha & Hf).
  rewrite (read_row_ok r a f Ha Hf) in Hrun. injection Hrun as <-.
  cbn [algo file sum_hex]. unfold cell_text. now rewrite !strip_idem.
Qed.

Lemma record_texts_stripped_witness :
  exists rec,
    read_row (dict_row sample_header ["  PH128 "; " a.bin"]) = Ok rec
    /\ algo rec = "PH128" /\ Py.strip (file rec) = file rec.
Proof.
  eexists. split; [reflexivity|]. split; [reflexivity|].
  exact (proj1 (proj2 (record_texts_stripped
                         (dict_row sample_header ["  PH128 "; " a.bin"]) _ eq_refl))).
Defined.
